(** * DASTCOM5 reader of sbpy ([sbpy/data/utils/dastcom5.py]), shallow embedding

    Bytes are [Byte.byte]; numpy structured dtypes are lists of
    (field name, field type); a numpy array read from a file is its dtype and
    the raw bytes of each item, which is how numpy stores it.  The host is
    little-endian (the files are [dast5_le.dat] and [dcom5_le.dat], read with
    native [np.int32] and [np.float64]).  Python exceptions are the [Err]
    outcomes of [result]; [Unmodelled] marks inputs outside the scope of the
    model (non-ASCII bytes in a text file, regular-expression syntax not
    covered, Python code not modelled). *)

From Stdlib Require Import String Ascii ZArith List Bool Lia.
Import ListNotations.
Open Scope string_scope.
Open Scope list_scope.
Open Scope Z_scope.

(** ** Outcomes *)

Inductive pyerr :=
  | FileNotFoundError
  | FileExistsError
  | IsADirectoryError
  | SeekError          (* [f.seek] to a negative position *)
  | ValueError         (* numpy: no such field / array not of size 1; int() parse *)
  | IndexError
  | TypeError
  | ReError            (* [re.error]: the pattern does not compile *)
  | BadZipFile
  | Unmodelled.

Inductive result (A : Type) : Type :=
  | Ok (a : A)
  | Err (e : pyerr).
Arguments Ok {A} a.
Arguments Err {A} e.

Definition bind {A B} (m : result A) (k : A -> result B) : result B :=
  match m with Ok a => k a | Err e => Err e end.

Notation "'let*' x := m 'in' k" := (bind m (fun x => k))
  (at level 200, x name, m at level 100, k at level 200).

(** ** Little-endian integers over bytes *)

Definition bval (b : Byte.byte) : Z := Z.of_N (Byte.to_N b).

Definition byte_of_Z (z : Z) : Byte.byte :=
  match Byte.of_N (Z.to_N (z mod 256)) with Some b => b | None => Byte.x00 end.

Fixpoint le_val (bs : list Byte.byte) : Z :=
  match bs with
  | [] => 0
  | b :: r => bval b + 256 * le_val r
  end.

Fixpoint le_bytes (n : nat) (z : Z) : list Byte.byte :=
  match n with
  | O => []
  | Datatypes.S n' => byte_of_Z z :: le_bytes n' (z / 256)
  end.

(** two's complement reading of an unsigned [bits]-bit value *)
Definition signed (bits : Z) (u : Z) : Z :=
  if u <? 2 ^ (bits - 1) then u else u - 2 ^ bits.

(** ** numpy structured dtypes *)

Inductive ftype := I8 | I16 | I32 | F32 | F64 | Str (w : nat).

Definition width (t : ftype) : nat :=
  match t with I8 => 1 | I16 => 2 | I32 => 4 | F32 => 4 | F64 => 8 | Str w => w end.

Definition dtype := list (string * ftype).

(** [dtype.names] *)
Definition dtype_names (dt : dtype) : list string := map fst dt.

(** numpy packs the fields of a structured dtype without padding *)
Fixpoint itemsize (dt : dtype) : nat :=
  match dt with
  | [] => O
  | (_, t) :: r => (width t + itemsize r)%nat
  end.

Definition AST_DTYPE : dtype :=
  [ ("NO", I32); ("NOBS", I32); ("OBSFRST", I32); ("OBSLAST", I32); ("EPOCH", F64);
    ("CALEPO", F64); ("MA", F64); ("W", F64); ("OM", F64); ("IN", F64); ("EC", F64);
    ("A", F64); ("QR", F64); ("TP", F64); ("TPCAL", F64); ("TPFRAC", F64);
    ("SOLDAT", F64); ("SRC1", F64); ("SRC2", F64); ("SRC3", F64); ("SRC4", F64);
    ("SRC5", F64); ("SRC6", F64); ("SRC7", F64); ("SRC8", F64); ("SRC9", F64);
    ("SRC10", F64); ("SRC11", F64); ("SRC12", F64); ("SRC13", F64); ("SRC14", F64);
    ("SRC15", F64); ("SRC16", F64); ("SRC17", F64); ("SRC18", F64); ("SRC19", F64);
    ("SRC20", F64); ("SRC21", F64); ("SRC22", F64); ("SRC23", F64); ("SRC24", F64);
    ("SRC25", F64); ("SRC26", F64); ("SRC27", F64); ("SRC28", F64); ("SRC29", F64);
    ("SRC30", F64); ("SRC31", F64); ("SRC32", F64); ("SRC33", F64); ("SRC34", F64);
    ("SRC35", F64); ("SRC36", F64); ("SRC37", F64); ("SRC38", F64); ("SRC39", F64);
    ("SRC40", F64); ("SRC41", F64); ("SRC42", F64); ("SRC43", F64); ("SRC44", F64);
    ("SRC45", F64); ("PRELTV", I8); ("SPHMX3", I8); ("SPHMX5", I8); ("JGSEP", I8);
    ("TWOBOD", I8); ("NSATS", I8); ("UPARM", I8); ("LSRC", I8); ("NDEL", I16);
    ("NDOP", I16); ("H", F32); ("G", F32); ("A1", F32); ("A2", F32); ("A3", F32);
    ("R0", F32); ("ALN", F32); ("NM", F32); ("NN", F32); ("NK", F32); ("LGK", F32);
    ("RHO", F32); ("AMRAT", F32); ("ALF", F32); ("DEL", F32); ("SPHLM3", F32);
    ("SPHLM5", F32); ("RP", F32); ("GM", F32); ("RAD", F32); ("EXTNT1", F32);
    ("EXTNT2", F32); ("EXTNT3", F32); ("MOID", F32); ("ALBEDO", F32); ("BVCI", F32);
    ("UBCI", F32); ("IRCI", F32); ("RMSW", F32); ("RMSU", F32); ("RMSN", F32);
    ("RMSNT", F32); ("RMSH", F32); ("EQUNOX", Str 4); ("PENAM", Str 6);
    ("SBNAM", Str 12); ("SPTYPT", Str 5); ("SPTYPS", Str 5); ("DARC", Str 9);
    ("COMNT1", Str 41); ("COMNT2", Str 80); ("DESIG", Str 13); ("ASTEST", Str 8);
    ("IREF", Str 10); ("ASTNAM", Str 18) ].

Definition COM_DTYPE : dtype :=
  [ ("NO", I32); ("NOBS", I32); ("OBSFRST", I32); ("OBSLAST", I32); ("EPOCH", F64);
    ("CALEPO", F64); ("MA", F64); ("W", F64); ("OM", F64); ("IN", F64); ("EC", F64);
    ("A", F64); ("QR", F64); ("TP", F64); ("TPCAL", F64); ("TPFRAC", F64);
    ("SOLDAT", F64); ("SRC1", F64); ("SRC2", F64); ("SRC3", F64); ("SRC4", F64);
    ("SRC5", F64); ("SRC6", F64); ("SRC7", F64); ("SRC8", F64); ("SRC9", F64);
    ("SRC10", F64); ("SRC11", F64); ("SRC12", F64); ("SRC13", F64); ("SRC14", F64);
    ("SRC15", F64); ("SRC16", F64); ("SRC17", F64); ("SRC18", F64); ("SRC19", F64);
    ("SRC20", F64); ("SRC21", F64); ("SRC22", F64); ("SRC23", F64); ("SRC24", F64);
    ("SRC25", F64); ("SRC26", F64); ("SRC27", F64); ("SRC28", F64); ("SRC29", F64);
    ("SRC30", F64); ("SRC31", F64); ("SRC32", F64); ("SRC33", F64); ("SRC34", F64);
    ("SRC35", F64); ("SRC36", F64); ("SRC37", F64); ("SRC38", F64); ("SRC39", F64);
    ("SRC40", F64); ("SRC41", F64); ("SRC42", F64); ("SRC43", F64); ("SRC44", F64);
    ("SRC45", F64); ("SRC46", F64); ("SRC47", F64); ("SRC48", F64); ("SRC49", F64);
    ("SRC50", F64); ("SRC51", F64); ("SRC52", F64); ("SRC53", F64); ("SRC54", F64);
    ("SRC55", F64); ("PRELTV", I8); ("SPHMX3", I8); ("SPHMX5", I8); ("JGSEP", I8);
    ("TWOBOD", I8); ("NSATS", I8); ("UPARM", I8); ("LSRC", I8); ("IPYR", I16);
    ("NDEL", I16); ("NDOP", I16); ("NOBSMT", I16); ("NOBSMN", I16); ("H", F32);
    ("G", F32); ("M1 (MT)", F32); ("M2 (MN)", F32); ("K1 (MTSMT)", F32);
    ("K2 (MNSMT)", F32); ("PHCOF (MNP)", F32); ("A1", F32); ("A2", F32); ("A3", F32);
    ("DT", F32); ("R0", F32); ("ALN", F32); ("NM", F32); ("NN", F32); ("NK", F32);
    ("S0", F32); ("TCL", F32); ("RHO", F32); ("AMRAT", F32); ("AJ1", F32);
    ("AJ2", F32); ("ET1", F32); ("ET2", F32); ("DTH", F32); ("ALF", F32); ("DEL", F32);
    ("SPHLM3", F32); ("SPHLM5", F32); ("RP", F32); ("GM", F32); ("RAD", F32);
    ("EXTNT1", F32); ("EXTNT2", F32); ("EXTNT3", F32); ("MOID", F32); ("ALBEDO", F32);
    ("RMSW", F32); ("RMSU", F32); ("RMSN", F32); ("RMSNT", F32); ("RMSMT", F32);
    ("RMSMN", F32); ("EQUNOX", Str 4); ("PENAM", Str 6); ("SBNAM", Str 12);
    ("DARC", Str 9); ("COMNT3", Str 49); ("COMNT2", Str 80); ("DESIG", Str 13);
    ("COMEST", Str 14); ("IREF", Str 10); ("COMNAM", Str 29) ].

(** the header dtypes local to [read_headers] *)
Definition ast_hdr_dtype : dtype :=
  [ ("IBIAS1", I32); ("BEGINP1", Str 8); ("BEGINP2", Str 8); ("BEGINP3", Str 8);
    ("ENDPT1", Str 8); ("ENDPT2", Str 8); ("ENDPT3", Str 8); ("CALDATE", Str 19);
    ("JDDATE", F64); ("FTYP", Str 1); ("BYTE2A", I16); ("IBIAS0", I32) ].

Definition com_hdr_dtype : dtype :=
  [ ("IBIAS2", I32); ("BEGINP1", Str 8); ("BEGINP2", Str 8); ("BEGINP3", Str 8);
    ("ENDPT1", Str 8); ("ENDPT2", Str 8); ("ENDPT3", Str 8); ("CALDATE", Str 19);
    ("JDDATE", F64); ("FTYP", Str 1); ("BYTE2C", I16) ].

(** ** Field values, as numpy scalars hold them

    An integer field is its signed value; a float field is its IEEE bit
    pattern (a numpy float scalar keeps the stored bits, and [.item()] of a
    float64 copies them into a Python float); a [|Sw] ([Str w]) field is a [bytes]
    value, which numpy returns with its trailing NUL bytes removed. *)

Inductive fval :=
  | VInt (z : Z)
  | VFloat (bits : Z)
  | VBytes (b : list Byte.byte).

Fixpoint drop_nul (l : list Byte.byte) : list Byte.byte :=
  match l with
  | Byte.x00 :: r => drop_nul r
  | _ => l
  end.

Definition rstrip_nul (bs : list Byte.byte) : list Byte.byte :=
  rev (drop_nul (rev bs)).

Definition decode_field (t : ftype) (bs : list Byte.byte) : fval :=
  match t with
  | I8 => VInt (signed 8 (le_val bs))
  | I16 => VInt (signed 16 (le_val bs))
  | I32 => VInt (signed 32 (le_val bs))
  | F32 | F64 => VFloat (le_val bs)
  | Str _ => VBytes (rstrip_nul bs)
  end.

(** storing a value into a field; a [bytes] value is cut or NUL-padded to the
    width, and a value of the wrong kind is refused *)
Definition encode_field (t : ftype) (v : fval) : option (list Byte.byte) :=
  match t, v with
  | I8, VInt z | I16, VInt z | I32, VInt z => Some (le_bytes (width t) z)
  | F32, VFloat b | F64, VFloat b => Some (le_bytes (width t) b)
  | Str w, VBytes b => Some (firstn w b ++ repeat Byte.x00 (w - length b)%nat)
  | _, _ => None
  end.

Fixpoint decode_item (dt : dtype) (bs : list Byte.byte) : list (string * fval) :=
  match dt with
  | [] => []
  | (n, t) :: r =>
      (n, decode_field t (firstn (width t) bs)) :: decode_item r (skipn (width t) bs)
  end.

Fixpoint encode_item (dt : dtype) (vs : list (string * fval)) : option (list Byte.byte) :=
  match dt, vs with
  | [], [] => Some []
  | (_, t) :: r, (_, v) :: vs' =>
      match encode_field t v, encode_item r vs' with
      | Some b1, Some b2 => Some (b1 ++ b2)
      | _, _ => None
      end
  | _, _ => None
  end.

(** ** Files

    The file system maps paths to contents; [fs_dirs] lists the existing
    directories.  [os.path.join] is modelled for relative components. *)

Record fsys := {
  fs_dirs : list string;
  fs_files : list (string * list Byte.byte)
}.

Fixpoint lookup {A} (p : string) (l : list (string * A)) : option A :=
  match l with
  | [] => None
  | (q, v) :: r => if String.eqb p q then Some v else lookup p r
  end.

Definition is_dir (fs : fsys) (p : string) : bool := existsb (String.eqb p) (fs_dirs fs).

(** [open(p, "rb")] and reading the whole file *)
Definition read_file (fs : fsys) (p : string) : result (list Byte.byte) :=
  if is_dir fs p then Err IsADirectoryError else
  match lookup p (fs_files fs) with
  | Some bs => Ok bs
  | None => Err FileNotFoundError
  end.

Definition os_path_join (a b : string) : string := String.append a (String.append "/" b).

(** ** numpy arrays and [np.fromfile] *)

Record ndarray := {
  arr_dtype : dtype;
  arr_items : list (list Byte.byte)
}.

(** [np.fromfile] in binary mode reads at most [count] whole items and
    returns fewer (possibly none) when the file ends, without an error *)
Fixpoint take_items (sz count : nat) (bs : list Byte.byte) : list (list Byte.byte) :=
  match count with
  | O => []
  | Datatypes.S c =>
      if (List.length bs <? sz)%nat then []
      else firstn sz bs :: take_items sz c (skipn sz bs)
  end.

(** [count = None] is numpy's default [count=-1]: read to the end *)
Definition np_fromfile (bs : list Byte.byte) (dt : dtype) (count : option nat) : ndarray :=
  let c := match count with Some c => c | None => List.length bs end in
  {| arr_dtype := dt; arr_items := take_items (itemsize dt) c bs |}.

(** [with open(path, "rb") as f: f.seek(pos, os.SEEK_SET); np.fromfile(f, ...)];
    seeking past the end is allowed, a negative position is refused *)
Definition read_from (fs : fsys) (path : string) (pos : Z) (dt : dtype)
    (count : option nat) : result ndarray :=
  let* bs := read_file fs path in
  if pos <? 0 then Err SeekError
  else Ok (np_fromfile (skipn (Z.to_nat pos) bs) dt count).

Fixpoint field_slot (dt : dtype) (name : string) (off : nat) : option (nat * ftype) :=
  match dt with
  | [] => None
  | (n, t) :: r =>
      if String.eqb n name then Some (off, t) else field_slot r name (off + width t)%nat
  end.

(** [a[name]]: the single-field view; an unknown name is a [ValueError] *)
Definition getfield (a : ndarray) (name : string) : result ndarray :=
  match field_slot (arr_dtype a) name O with
  | None => Err ValueError
  | Some (off, t) =>
      Ok {| arr_dtype := [(name, t)];
            arr_items := map (fun it => firstn (width t) (skipn off it)) (arr_items a) |}
  end.

Definition scalar_of (a : ndarray) (it : list Byte.byte) : result fval :=
  match arr_dtype a with
  | [(_, t)] => Ok (decode_field t it)
  | _ => Err Unmodelled
  end.

(** [v[i].item()] of a single-field view *)
Definition index_item (a : ndarray) (i : nat) : result fval :=
  match nth_error (arr_items a) i with
  | Some it => scalar_of a it
  | None => Err IndexError
  end.

(** [v.item()]: only for an array of size 1 *)
Definition item (a : ndarray) : result fval :=
  match arr_items a with
  | [it] => scalar_of a it
  | _ => Err ValueError
  end.

(** ** Python [int] *)

Definition is_pyspace (b : Byte.byte) : bool :=
  match b with
  | Byte.x20 | Byte.x09 | Byte.x0a | Byte.x0b | Byte.x0c | Byte.x0d => true
  | _ => false
  end.

Fixpoint drop_space (l : list Byte.byte) : list Byte.byte :=
  match l with
  | b :: r => if is_pyspace b then drop_space r else l
  | [] => []
  end.

Definition strip_space (bs : list Byte.byte) : list Byte.byte :=
  rev (drop_space (rev (drop_space bs))).

Definition digit (b : Byte.byte) : option Z :=
  let v := bval b in if (48 <=? v) && (v <=? 57) then Some (v - 48) else None.

(** decimal digits, single underscores allowed between digits *)
Fixpoint parse_digits (bs : list Byte.byte) (acc : Z) : option Z :=
  match bs with
  | [] => Some acc
  | b :: r =>
      match digit b with
      | Some d => parse_digits r (10 * acc + d)
      | None =>
          match b, r with
          | Byte.x5f, c :: _ =>
              match digit c with Some _ => parse_digits r acc | None => None end
          | _, _ => None
          end
      end
  end.

Definition parse_unsigned (bs : list Byte.byte) : option Z :=
  match bs with
  | c :: _ => match digit c with Some _ => parse_digits bs 0 | None => None end
  | [] => None
  end.

(** [int(b)] of a [bytes] value *)
Definition py_int_bytes (bs : list Byte.byte) : result Z :=
  let r := match strip_space bs with
           | Byte.x2d :: t => option_map Z.opp (parse_unsigned t)
           | Byte.x2b :: t => parse_unsigned t
           | t => parse_unsigned t
           end in
  match r with Some z => Ok z | None => Err ValueError end.

(** [int(v)]; [int] of a float is not reached by the code modelled here *)
Definition py_int (v : fval) : result Z :=
  match v with
  | VInt z => Ok z
  | VBytes b => py_int_bytes b
  | VFloat _ => Err Unmodelled
  end.

(** a value used directly in integer arithmetic ([record - v - 1]) *)
Definition py_as_int (v : fval) : result Z :=
  match v with
  | VInt z => Ok z
  | VBytes _ => Err TypeError
  | VFloat _ => Err Unmodelled
  end.

(** [header[name][0].item()] *)
Definition hdr_field (h : ndarray) (name : string) : result fval :=
  let* f := getfield h name in index_item f O.

(** ** astropy tables

    A table is its column names and its rows of cells.  A cell is the Python
    object placed in it: a [str], an [int], a float (its bits) or an
    astropy [Time] built from a Julian date (the bits of that date). *)

Inductive cell :=
  | CStr (s : string)
  | CInt (z : Z)
  | CFloat (bits : Z)
  | CTime (jd_bits : Z).

Record table := {
  colnames : list string;
  trows : list (list cell)
}.

Fixpoint nat_digits (fuel n : nat) (acc : string) : string :=
  match fuel with
  | O => acc
  | Datatypes.S f =>
      let acc' := String (ascii_of_nat (48 + n mod 10)) acc in
      if (n <? 10)%nat then acc' else nat_digits f (n / 10) acc'
  end.

Definition str_of_nat (n : nat) : string := nat_digits (Datatypes.S n) n "".

(** [str(z)] of a Python [int] *)
Definition py_str_int (z : Z) : string :=
  if z <? 0 then String "-" (str_of_nat (Z.to_nat (- z))) else str_of_nat (Z.to_nat z).

Definition is_str_cell (c : cell) : bool := match c with CStr _ => true | _ => false end.
Definition is_time_cell (c : cell) : bool := match c with CTime _ => true | _ => false end.

Section Tables.

(** [str(x)] of the Python float with these bits (its shortest round-trip
    decimal form, e.g. ['4.95e-321']), not modelled here *)
Variable float_str : Z -> string.

Definition py_str (c : cell) : string :=
  match c with
  | CStr s => s
  | CInt z => py_str_int z
  | CFloat b => float_str b
  | CTime _ => ""
  end.

(** the column astropy builds from the cells given for one column: numpy
    turns [str] values mixed with numbers into an array of [str] holding
    [str(v)] of each value; a column holding a [Time] keeps its objects; a
    column with no [str] is kept as it is (never reached below: the first
    row of the table built here holds strings) *)
Definition coerce_column (col : list cell) : list cell :=
  if existsb is_time_cell col then col
  else if existsb is_str_cell col then map (fun c => CStr (py_str c)) col
  else col.

(** [Table(rows=rows)]: the rows are cut into columns, each column is
    coerced, and the columns are named [col0], [col1], ... *)
Definition Table_rows (rows : list (list cell)) : table :=
  let ncols := List.length (hd [] rows) in
  let cols := map (fun j => coerce_column (map (fun row => nth j row (CStr "")) rows))
                  (seq 0 ncols) in
  {| colnames := map (fun i => String.append "col" (str_of_nat i)) (seq 0 ncols);
     trows := map (fun i => map (fun col => nth i col (CStr "")) cols)
                  (seq 0 (List.length rows)) |}.

End Tables.

(** the Python value [.item()] gives for a field *)
Definition cell_of (v : fval) : cell :=
  match v with
  | VInt z => CInt z
  | VFloat b => CFloat b
  | VBytes b => CStr (string_of_list_ascii (map (fun x => ascii_of_N (Byte.to_N x)) b))
  end.

(** [Table(a)] of a structured array: one column per field, named after it,
    one row per item *)
Definition Table_of_array (a : ndarray) : table :=
  {| colnames := dtype_names (arr_dtype a);
     trows := map (fun it => map (fun f => cell_of (snd f)) (decode_item (arr_dtype a) it))
                  (arr_items a) |}.

(** [Time(v, format="jd", scale="tdb")] *)
Definition Time_jd (v : fval) : result cell :=
  match v with
  | VFloat b => Ok (CTime b)
  | _ => Err Unmodelled
  end.

(** ** Python slicing of a list *)

Definition slice_index (n : Z) (i : Z) : Z :=
  if i <? 0 then Z.max 0 (n + i) else Z.min i n.

(** [l[start:stop]], [None] for an omitted bound *)
Definition py_slice {A} (l : list A) (start stop : option Z) : list A :=
  let n := Z.of_nat (List.length l) in
  let b := match start with Some i => slice_index n i | None => 0 end in
  let e := match stop with Some j => slice_index n j | None => n end in
  firstn (Z.to_nat (e - b)) (skipn (Z.to_nat b) l).

(** the fields [entire_db] keeps of each database:
    [names[:17] + names[-4:-3] + names[-2:]] *)
Definition entire_db_fields (dt : dtype) : list string :=
  let names := dtype_names dt in
  py_slice names None (Some 17) ++ py_slice names (Some (-4)) (Some (-3))
  ++ py_slice names (Some (-2)) None.

(** ** Text files and [re]

    A Python [str] is a [string] whose characters stand for the code points
    U+0000 .. U+00FF.  The index file is read as ASCII text: a byte above 127
    in it (whose UTF-8 decoding is not modelled) is [Unmodelled].  Reading a
    text file yields its lines with universal newlines ([\n], [\r\n] and
    [\r] end a line, which is returned ending in [\n]). *)

Definition ascii_of_byte (b : Byte.byte) : ascii := ascii_of_N (Byte.to_N b).

Fixpoint text_lines_acc (bs : list Byte.byte) (cur : list ascii) : result (list string) :=
  match bs with
  | [] => Ok (match cur with [] => [] | _ => [string_of_list_ascii (rev cur)] end)
  | Byte.x0a :: r => let* ls := text_lines_acc r [] in
                     Ok (string_of_list_ascii (rev ("010"%char :: cur)) :: ls)
  | Byte.x0d :: Byte.x0a :: r
  | Byte.x0d :: r => let* ls := text_lines_acc r [] in
                     Ok (string_of_list_ascii (rev ("010"%char :: cur)) :: ls)
  | b :: r => if 127 <? bval b then Err Unmodelled
              else text_lines_acc r (ascii_of_byte b :: cur)
  end.

Definition text_lines (bs : list Byte.byte) : result (list string) := text_lines_acc bs [].

(** lower-casing of ASCII letters *)
Definition casefold_char (c : ascii) : ascii :=
  let n := nat_of_ascii c in
  if (65 <=? n)%nat && (n <=? 90)%nat then ascii_of_nat (n + 32) else c.

(** [str.casefold] of one character of a name: A-Z and the Latin-1
    capitals U+00C0 .. U+00DE (but U+00D7) are lowered, U+00DF folds to
    ["ss"], every other character up to U+00FF is kept but U+00B5, which
    folds to U+03BC, beyond this 8-bit model *)
Definition casefold_code (c : ascii) : result (list ascii) :=
  let n := nat_of_ascii c in
  if (65 <=? n)%nat && (n <=? 90)%nat then Ok [ascii_of_nat (n + 32)]
  else if (192 <=? n)%nat && (n <=? 222)%nat && negb (n =? 215)%nat then Ok [ascii_of_nat (n + 32)]
  else if (n =? 223)%nat then Ok ["s"; "s"]%char
  else if (n =? 181)%nat then Err Unmodelled
  else Ok [c].

Fixpoint casefold_list (l : list ascii) : result (list ascii) :=
  match l with
  | [] => Ok []
  | c :: r => let* x := casefold_code c in let* y := casefold_list r in Ok (x ++ y)
  end.

Definition casefold (s : string) : result string :=
  let* l := casefold_list (list_ascii_of_string s) in Ok (string_of_list_ascii l).

Definition is_word (c : ascii) : bool :=
  let n := nat_of_ascii c in
  (Nat.leb 48 n && Nat.leb n 57) || (Nat.leb 65 n && Nat.leb n 90)
  || (Nat.leb 97 n && Nat.leb n 122) || Nat.eqb n 95.

(** the part of Python's pattern syntax the model covers: literal
    characters, [.], [\b], escaped punctuation and groups [( )]; other
    metacharacters are [Unmodelled] *)
Inductive atom := AChar (c : ascii) | AAny | AWordB.

Inductive parsed := PAtoms (p : list atom) | PError | PUnsup.

Definition re_special (c : ascii) : bool :=
  existsb (Ascii.eqb c) ["*"; "+"; "?"; "{"; "}"; "["; "]"; "|"; "^"; "$"]%char.

Fixpoint re_parse (s : list ascii) (depth : nat) (acc : list atom) : parsed :=
  match s with
  | [] => if (depth =? 0)%nat then PAtoms (rev acc) else PError
  | "\"%char :: [] => PError
  | "\"%char :: c :: r =>
      if Ascii.eqb c "b" then re_parse r depth (AWordB :: acc)
      else if is_word c then PUnsup
      else re_parse r depth (AChar c :: acc)
  | "."%char :: r => re_parse r depth (AAny :: acc)
  | "("%char :: r =>
      match r with
      | "?"%char :: _ => PUnsup
      | _ => re_parse r (Datatypes.S depth) acc
      end
  | ")"%char :: r =>
      match depth with
      | O => PError
      | Datatypes.S d => re_parse r d acc
      end
  | c :: r => if re_special c then PUnsup else re_parse r depth (AChar c :: acc)
  end.

Definition word_at (s : list ascii) (i : nat) : bool :=
  match nth_error s i with Some c => is_word c | None => false end.

Definition at_boundary (s : list ascii) (i : nat) : bool :=
  xorb (match i with O => false | Datatypes.S j => word_at s j end) (word_at s i).

Fixpoint match_at (p : list atom) (s : list ascii) (i : nat) : bool :=
  match p with
  | [] => true
  | AChar c :: r =>
      match nth_error s i with
      | Some d => Ascii.eqb c d && match_at r s (Datatypes.S i)
      | None => false
      end
  | AAny :: r =>
      match nth_error s i with
      | Some d => negb (Ascii.eqb d "010"%char) && match_at r s (Datatypes.S i)
      | None => false
      end
  | AWordB :: r => at_boundary s i && match_at r s i
  end.

(** [re.search(pattern, s) is not None] *)
Definition re_search (pattern s : string) : result bool :=
  match re_parse (list_ascii_of_string pattern) O [] with
  | PAtoms p =>
      let l := list_ascii_of_string s in
      Ok (existsb (match_at p l) (seq 0 (Datatypes.S (List.length l))))
  | PError => Err ReError
  | PUnsup => Err Unmodelled
  end.

(** [int(s)] of a [str]: surrounding whitespace stripped (for [str] this
    includes [\x1c] .. [\x1f]), an optional sign, decimal digits with single
    underscores between them.  Non-ASCII text is outside the model. *)
Definition py_str_isspace (c : ascii) : bool :=
  let n := nat_of_ascii c in (Nat.leb 9 n && Nat.leb n 13) || (Nat.leb 28 n && Nat.leb n 32).

Fixpoint lstrip_chars (l : list ascii) : list ascii :=
  match l with
  | c :: r => if py_str_isspace c then lstrip_chars r else l
  | [] => []
  end.

(** [s.lstrip()] *)
Definition str_lstrip (s : string) : string :=
  string_of_list_ascii (lstrip_chars (list_ascii_of_string s)).

Definition byte_of_ascii (c : ascii) : Byte.byte := byte_of_Z (Z.of_nat (nat_of_ascii c)).

Definition py_int_str (s : string) : result Z :=
  let l := list_ascii_of_string s in
  if existsb (fun c => Nat.ltb 127 (nat_of_ascii c)) l then Err Unmodelled else
  let t := rev (lstrip_chars (rev (lstrip_chars l))) in
  let r := match map byte_of_ascii t with
           | Byte.x2d :: u => option_map Z.opp (parse_unsigned u)
           | Byte.x2b :: u => parse_unsigned u
           | u => parse_unsigned u
           end in
  match r with Some z => Ok z | None => Err ValueError end.

(** a loop appending [f x] for each [x], stopping at the first exception *)
Fixpoint map_result {A B} (f : A -> result B) (l : list A) : result (list B) :=
  match l with
  | [] => Ok []
  | x :: r => let* y := f x in let* ys := map_result f r in Ok (y :: ys)
  end.

(** ** The reader *)

Section Reader.

Variable home : string.   (* [os.path.expanduser("~")] *)
(** [str] of a Python float, as in [Table_rows] *)
Variable float_str : Z -> string.
(** astropy's [vstack], as [entire_db] calls it: [vstack(ast_database,
    com_database)], the comet table passed in the position of [join_type];
    its outcome is not modelled *)
Variable vstack : table -> table -> result table.

Definition SBPY_LOCAL_PATH : string := os_path_join home ".sbpy".
Definition DBS_LOCAL_PATH : string :=
  os_path_join (os_path_join SBPY_LOCAL_PATH "dastcom5") "dat".
Definition AST_DB_PATH : string := os_path_join DBS_LOCAL_PATH "dast5_le.dat".
Definition COM_DB_PATH : string := os_path_join DBS_LOCAL_PATH "dcom5_le.dat".

Definition asteroid_db (fs : fsys) : result ndarray :=
  read_from fs AST_DB_PATH 835 AST_DTYPE None.

Definition comet_db (fs : fsys) : result ndarray :=
  read_from fs COM_DB_PATH 976 COM_DTYPE None.

Definition read_headers (fs : fsys) : result (ndarray * ndarray) :=
  let ast_path := os_path_join DBS_LOCAL_PATH "dast5_le.dat" in
  let* ast_header := read_from fs ast_path 0 ast_hdr_dtype (Some 1%nat) in
  let com_path := os_path_join DBS_LOCAL_PATH "dcom5_le.dat" in
  let* com_header := read_from fs com_path 0 com_hdr_dtype (Some 1%nat) in
  Ok (ast_header, com_header).

Definition read_record (fs : fsys) (record : Z) : result ndarray :=
  let* headers := read_headers fs in
  let '(ast_header, com_header) := headers in
  let ast_path := os_path_join DBS_LOCAL_PATH "dast5_le.dat" in
  let com_path := os_path_join DBS_LOCAL_PATH "dcom5_le.dat" in
  let* endpt2 := bind (hdr_field ast_header "ENDPT2") py_int in
  if record <=? endpt2 then
    let* endpt1 := bind (hdr_field ast_header "ENDPT1") py_int in
    let* phis_rec :=
      if record <=? endpt1 then
        let* ibias0 := bind (hdr_field ast_header "IBIAS0") py_as_int in
        Ok (835 * (record - ibias0 - 1))
      else
        let* ibias1 := bind (hdr_field ast_header "IBIAS1") py_as_int in
        Ok (835 * (record - ibias1 - 1)) in
    read_from fs ast_path phis_rec AST_DTYPE (Some 1%nat)
  else
    let* ibias2 := bind (hdr_field com_header "IBIAS2") py_as_int in
    let phis_rec := 976 * (record - ibias2 - 1) in
    read_from fs com_path phis_rec COM_DTYPE (Some 1%nat).

(** [body_data[name].item()] *)
Definition field_value (body_data : ndarray) (name : string) : result fval :=
  let* f := getfield body_data name in item f.

Definition orbit_from_record (fs : fsys) (record : Z) : result table :=
  let* body_data := read_record fs record in
  let* a := field_value body_data "A" in
  let* ecc := field_value body_data "EC" in
  let* inc := field_value body_data "IN" in
  let* raan := field_value body_data "OM" in
  let* argp := field_value body_data "W" in
  let* m := field_value body_data "MA" in
  let* epoch := bind (field_value body_data "EPOCH") Time_jd in
  let column2 := [CInt record; cell_of a; cell_of ecc; cell_of inc;
                  cell_of raan; cell_of argp; cell_of m; epoch] in
  let column1 := map CStr ["record"; "a"; "ecc"; "inc"; "raan"; "argp"; "m"; "EPOCH"] in
  let data := Table_rows float_str [column1; column2] in
  Ok data.

(** numpy's multi-field index [a[names]]: a name given twice is a
    [ValueError]; the model only meets names of the dtype *)
Fixpoint has_dup (l : list string) : bool :=
  match l with
  | [] => false
  | x :: r => existsb (String.eqb x) r || has_dup r
  end.

Definition slot_of (dt : dtype) (n : string) : list (string * nat * ftype) :=
  match field_slot dt n O with
  | Some (off, t) => [(n, off, t)]
  | None => []
  end.

Definition select_fields (a : ndarray) (names : list string) : result ndarray :=
  if has_dup names then Err ValueError else
  let slots := flat_map (slot_of (arr_dtype a)) names in
  if negb (List.length slots =? List.length names)%nat then Err Unmodelled else
  Ok {| arr_dtype := map (fun '(n, _, t) => (n, t)) slots;
        arr_items := map (fun it => flat_map (fun '(_, off, t) => firstn (width t) (skipn off it))
                                             slots) (arr_items a) |}.

Definition entire_db (fs : fsys) : result table :=
  let* ast_database := asteroid_db fs in
  let* com_database := comet_db fs in
  let* ast_sel := select_fields ast_database (entire_db_fields (arr_dtype ast_database)) in
  let ast_table := Table_of_array ast_sel in
  let* com_sel := select_fields com_database (entire_db_fields (arr_dtype com_database)) in
  let com_table := Table_of_array com_sel in
  vstack ast_table com_table.

(** [string_record_from_name]: the index lines whose case-folded text
    [re.search]es the pattern [\b + name.casefold() + \b] *)
Fixpoint scan_lines (name : string) (ls : list string) : result (list string) :=
  match ls with
  | [] => Ok []
  | line :: r =>
      let* nm := casefold name in
      let* lf := casefold line in
      let* hit := re_search (String.append "\b" (String.append nm "\b")) lf in
      let* rest := scan_lines name r in
      Ok (if hit then line :: rest else rest)
  end.

Definition string_record_from_name (fs : fsys) (name : string) : result (list string) :=
  let idx_path := os_path_join DBS_LOCAL_PATH "dastcom.idx" in
  let* bs := read_file fs idx_path in
  let* lines := text_lines bs in
  scan_lines name lines.

(** [record_from_name]: the record number [int(line[:6].lstrip())] of each
    line [string_record_from_name] returns *)
Definition record_from_name (fs : fsys) (name : string) : result (list Z) :=
  let* lines := string_record_from_name fs name in
  map_result (fun line => py_int_str (str_lstrip (substring 0 6 line))) lines.

End Reader.

(** ** [download_dastcom5]: file-system effects

    A state-and-error monad over the file system: an exception keeps the
    writes done before it. *)

Definition io (A : Type) : Type := fsys -> result A * fsys.

Definition io_ret {A} (a : A) : io A := fun fs => (Ok a, fs).
Definition io_raise {A} (e : pyerr) : io A := fun fs => (Err e, fs).
Definition io_bind {A B} (m : io A) (k : A -> io B) : io B :=
  fun fs => match m fs with
            | (Ok a, fs') => k a fs'
            | (Err e, fs') => (Err e, fs')
            end.

Notation "x <- m ;; k" := (io_bind m (fun x => k))
  (at level 61, m at next level, right associativity).
Notation "m ;;; k" := (io_bind m (fun _ => k))
  (at level 61, right associativity).

Definition under (dir p : string) : bool := String.prefix (String.append dir "/") p.

Definition os_path_isdir (p : string) : io bool :=
  fun fs => (Ok (existsb (String.eqb p) (fs_dirs fs)), fs).

Definition shutil_rmtree (p : string) : io unit :=
  fun fs =>
    if existsb (String.eqb p) (fs_dirs fs) then
      (Ok tt, {| fs_dirs := filter (fun d => negb (String.eqb p d || under p d)) (fs_dirs fs);
                 fs_files := filter (fun f => negb (under p (fst f))) (fs_files fs) |})
    else (Err FileNotFoundError, fs).

(** [os.makedirs(p)]: an existing directory or file at [p] is a
    [FileExistsError]; the intermediate directories it would also create are
    not recorded *)
Definition os_makedirs (p : string) : io unit :=
  fun fs =>
    match is_dir fs p, lookup p (fs_files fs) with
    | false, None => (Ok tt, {| fs_dirs := p :: fs_dirs fs; fs_files := fs_files fs |})
    | _, _ => (Err FileExistsError, fs)
    end.

(** [open(p, "wb")] and writing [bs]: a directory cannot be opened *)
Definition write_file (p : string) (bs : list Byte.byte) : io unit :=
  fun fs =>
    if is_dir fs p then (Err IsADirectoryError, fs)
    else (Ok tt, {| fs_dirs := fs_dirs fs;
                    fs_files := (p, bs) :: filter (fun f => negb (String.eqb p (fst f)))
                                                  (fs_files fs) |}).

(** [os.remove(p)] (on Linux a directory gives [IsADirectoryError]) *)
Definition os_remove (p : string) : io unit :=
  fun fs =>
    match lookup p (fs_files fs) with
    | Some _ => (Ok tt, {| fs_dirs := fs_dirs fs;
                           fs_files := filter (fun f => negb (String.eqb p (fst f)))
                                              (fs_files fs) |})
    | None => (Err (if is_dir fs p then IsADirectoryError else FileNotFoundError), fs)
    end.

(** [print] writes to the terminal only *)
Definition print (_ : string) : io unit := io_ret tt.

Section Download.

Variable home : string.
(** the bytes served at [FTP_DB_URL + "dastcom5.zip"] *)
Variable remote_zip : list Byte.byte.
(** the members (relative path, contents) of a zip archive; [None] when the
    bytes are not a zip archive *)
Variable zip_members : list Byte.byte -> option (list (string * list Byte.byte)).

(** [zipfile.is_zipfile(p)] answers [False] when [p] cannot be opened *)
Definition zipfile_is_zipfile (p : string) : io bool :=
  fun fs => match lookup p (fs_files fs) with
            | Some bs => (Ok (match zip_members bs with Some _ => true | None => false end), fs)
            | None => (Ok false, fs)
            end.

Definition urlretrieve (p : string) : io unit := write_file p remote_zip.

Fixpoint write_all (dir : string) (ms : list (string * list Byte.byte)) : io unit :=
  match ms with
  | [] => io_ret tt
  | (n, bs) :: r => write_file (os_path_join dir n) bs ;;; write_all dir r
  end.

(** [with zipfile.ZipFile(p) as myzip: myzip.extractall(dir)] *)
Definition extractall (p dir : string) : io unit :=
  fun fs => match read_file fs p with
            | Err e => (Err e, fs)
            | Ok bs => match zip_members bs with
                         | None => (Err BadZipFile, fs)
                         | Some ms => write_all dir ms fs
                         end
            end.

Definition download_dastcom5 (update : bool) : io unit :=
  let dastcom5_dir := os_path_join (SBPY_LOCAL_PATH home) "dastcom5" in
  let dastcom5_zip_path := os_path_join (SBPY_LOCAL_PATH home) "dastcom5.zip" in
  d1 <- os_path_isdir dastcom5_dir ;;
  if d1 && negb update then io_raise FileExistsError else
  d2 <- os_path_isdir dastcom5_dir ;;
  (if d2 && update then shutil_rmtree dastcom5_dir else io_ret tt) ;;;
  print "Downloading the latest DASTCOM5 Database" ;;;
  z <- zipfile_is_zipfile dastcom5_zip_path ;;
  (if negb z then
     s <- os_path_isdir (SBPY_LOCAL_PATH home) ;;
     (if negb s then os_makedirs (SBPY_LOCAL_PATH home) else io_ret tt) ;;;
     urlretrieve dastcom5_zip_path
   else io_ret tt) ;;;
  extractall dastcom5_zip_path (SBPY_LOCAL_PATH home) ;;;
  os_remove dastcom5_zip_path.

End Download.

(** ** A sample archive

    Concrete files used to run the definitions: an asteroid file whose
    header says ENDPT1 = 2, ENDPT2 = 4, IBIAS0 = -1, IBIAS1 = -2, records
    padded to 835 bytes; a comet file with IBIAS2 = 3 and records padded to
    976 bytes; and a three-line name index. *)

Definition bstr (s : string) : list Byte.byte :=
  map (fun c => byte_of_Z (Z.of_nat (nat_of_ascii c))) (list_ascii_of_string s).

Definition pad_to (n : nat) (bs : list Byte.byte) : list Byte.byte :=
  bs ++ repeat Byte.x00 (n - List.length bs).

Definition default_val (t : ftype) : fval :=
  match t with
  | Str _ => VBytes []
  | F32 | F64 => VFloat 0
  | I8 | I16 | I32 => VInt 0
  end.

(** one item of [dt]: the given fields, the others zero *)
Definition mk_item (dt : dtype) (given : list (string * fval)) : list Byte.byte :=
  let vs := map (fun '(n, t) => (n, match lookup n given with
                                     | Some v => v
                                     | None => default_val t
                                     end)) dt in
  match encode_item dt vs with Some bs => bs | None => [] end.

Definition sample_ast_header : list Byte.byte :=
  mk_item ast_hdr_dtype
    [("IBIAS1", VInt (-2)); ("BEGINP1", VBytes (bstr "1"));
     ("ENDPT1", VBytes (bstr "       2")); ("ENDPT2", VBytes (bstr "4"));
     ("ENDPT3", VBytes (bstr "4")); ("FTYP", VBytes (bstr "L"));
     ("IBIAS0", VInt (-1))].

Definition sample_com_header : list Byte.byte :=
  mk_item com_hdr_dtype
    [("IBIAS2", VInt 3); ("ENDPT1", VBytes (bstr "6")); ("FTYP", VBytes (bstr "L"))].

Definition sample_ast_record (no : Z) : list Byte.byte :=
  pad_to 835 (mk_item AST_DTYPE
    [("NO", VInt no); ("EPOCH", VFloat 4703427468236279808); ("A", VFloat (1000 + no));
     ("EC", VFloat 2); ("ASTNAM", VBytes (bstr "Eros"))]).

Definition sample_com_record (no : Z) : list Byte.byte :=
  pad_to 976 (mk_item COM_DTYPE [("NO", VInt no); ("COMNAM", VBytes (bstr "1P/Halley"))]).

(** records 1, 2 (numbered), a gap, then 3, 4 (unnumbered) *)
Definition sample_ast_file : list Byte.byte :=
  pad_to 835 sample_ast_header ++ sample_ast_record 1 ++ sample_ast_record 2
  ++ repeat Byte.x00 835 ++ sample_ast_record 3 ++ sample_ast_record 4.

(** records 5 and 6 *)
Definition sample_com_file : list Byte.byte :=
  pad_to 976 sample_com_header ++ sample_com_record 5 ++ sample_com_record 6.

Definition nl : string := String "010"%char EmptyString.

Definition sample_idx : list Byte.byte :=
  bstr (String.append "     1 433 Eros (A898 PA)" (String.append nl
       (String.append "     3 Aeros 2099 XA" (String.append nl
       (String.append "     5 1P/Halley" nl))))).

Definition sample_home : string := "/home/astro".

Definition sample_fs : fsys :=
  {| fs_dirs := [SBPY_LOCAL_PATH sample_home;
                 os_path_join (SBPY_LOCAL_PATH sample_home) "dastcom5";
                 DBS_LOCAL_PATH sample_home];
     fs_files := [(AST_DB_PATH sample_home, sample_ast_file);
                  (COM_DB_PATH sample_home, sample_com_file);
                  (os_path_join (DBS_LOCAL_PATH sample_home) "dastcom.idx", sample_idx)] |}.

(** The matching rule stated by the spec, kept apart from the code's
    [string_record_from_name] to compare the two: the case-folded query occurs
    literally in the case-folded line, with no word character right before
    or right after the occurrence. *)
Definition spec_whole_word_at (q s : list ascii) (i : nat) : bool :=
  String.eqb (string_of_list_ascii (firstn (List.length q) (skipn i s))) (string_of_list_ascii q)
  && negb (match i with O => false | Datatypes.S j => word_at s j end)
  && negb (word_at s (i + List.length q)).

Definition spec_whole_word_match (name line : string) : bool :=
  let q := map casefold_char (list_ascii_of_string name) in
  let l := map casefold_char (list_ascii_of_string line) in
  existsb (spec_whole_word_at q l) (seq 0 (Datatypes.S (List.length l))).

(** a stacking function to run [entire_db] with: it keeps the columns of
    its first table and appends the rows of the second *)
Definition stack_rows (t1 t2 : table) : result table :=
  Ok {| colnames := colnames t1; trows := trows t1 ++ trows t2 |}.

(** the sample asteroid file cut to 10 bytes *)
Definition truncated_fs : fsys :=
  {| fs_dirs := fs_dirs sample_fs;
     fs_files := [(AST_DB_PATH sample_home, firstn 10 sample_ast_file);
                  (COM_DB_PATH sample_home, sample_com_file)] |}.

Definition eros_line : string := String.append "     1 433 Eros (A898 PA)" nl.
Definition halley_line : string := String.append "     5 1P/Halley" nl.


(** * Properties *)

(** ** Byte-level lemmas *)

Lemma bval_range (b : Byte.byte) : 0 <= bval b < 256.
Proof.
  unfold bval. pose proof (Byte.to_N_bounded b). lia.
Qed.

Lemma byte_of_Z_bval (b : Byte.byte) (k : Z) : byte_of_Z (bval b + 256 * k) = b.
Proof.
  unfold byte_of_Z.
  replace ((bval b + 256 * k) mod 256) with (bval b).
  - unfold bval. rewrite N2Z.id, Byte.of_to_N. reflexivity.
  - rewrite Z.mul_comm, Z.mod_add by lia.
    rewrite Z.mod_small; [reflexivity | apply bval_range].
Qed.

Lemma le_bytes_le_val (bs : list Byte.byte) :
  le_bytes (List.length bs) (le_val bs) = bs.
Proof.
  induction bs as [|b r IH]; [reflexivity|].
  cbn [List.length le_bytes le_val].
  rewrite byte_of_Z_bval.
  replace ((bval b + 256 * le_val r) / 256) with (le_val r); [now rewrite IH|].
  rewrite Z.mul_comm, Z.div_add by lia.
  rewrite Z.div_small by apply bval_range. lia.
Qed.

Lemma le_val_range (bs : list Byte.byte) :
  0 <= le_val bs < 256 ^ Z.of_nat (List.length bs).
Proof.
  induction bs as [|b r IH]; cbn [le_val List.length]; [lia|].
  rewrite Nat2Z.inj_succ, Z.pow_succ_r by lia.
  pose proof (bval_range b). nia.
Qed.

Lemma byte_of_Z_mod (z k : Z) : byte_of_Z (z + 256 * k) = byte_of_Z z.
Proof.
  unfold byte_of_Z. rewrite Z.mul_comm, Z.mod_add by lia. reflexivity.
Qed.

Lemma le_bytes_periodic (n : nat) (z k : Z) :
  le_bytes n (z + k * 256 ^ Z.of_nat n) = le_bytes n z.
Proof.
  revert z k; induction n as [|n IH]; intros z k; [reflexivity|].
  cbn [le_bytes]. rewrite Nat2Z.inj_succ, Z.pow_succ_r by lia.
  replace (z + k * (256 * 256 ^ Z.of_nat n))
    with (z + 256 * (k * 256 ^ Z.of_nat n)) by ring.
  rewrite byte_of_Z_mod. f_equal.
  replace (z + 256 * (k * 256 ^ Z.of_nat n))
    with (z + (k * 256 ^ Z.of_nat n) * 256) by ring.
  rewrite Z.div_add by lia. apply IH.
Qed.

Lemma drop_nul_split (l : list Byte.byte) :
  exists k, l = repeat Byte.x00 k ++ drop_nul l.
Proof.
  induction l as [|b r IH]; [exists O; reflexivity|].
  destruct b; try (exists O; reflexivity).
  destruct IH as [k Hk]. exists (Datatypes.S k). cbn. now rewrite <- Hk.
Qed.

Lemma rstrip_nul_pad (bs : list Byte.byte) :
  rstrip_nul bs ++ repeat Byte.x00 (List.length bs - List.length (rstrip_nul bs)) = bs.
Proof.
  unfold rstrip_nul.
  destruct (drop_nul_split (rev bs)) as [k Hk].
  assert (Hbs : bs = rev (drop_nul (rev bs)) ++ repeat Byte.x00 k).
  { rewrite <- (rev_involutive bs) at 1. rewrite Hk at 1.
    rewrite rev_app_distr, rev_repeat. reflexivity. }
  set (d := rev (drop_nul (rev bs))) in *.
  rewrite Hbs at 2. f_equal. f_equal.
  apply (f_equal (@List.length _)) in Hbs.
  rewrite length_app, repeat_length in Hbs. lia.
Qed.

Lemma rstrip_nul_length (bs : list Byte.byte) :
  (List.length (rstrip_nul bs) <= List.length bs)%nat.
Proof.
  pose proof (f_equal (@List.length _) (rstrip_nul_pad bs)) as H.
  rewrite length_app in H. lia.
Qed.

Lemma encode_decode_field (t : ftype) (bs : list Byte.byte) :
  List.length bs = width t ->
  encode_field t (decode_field t bs) = Some bs.
Proof.
  intros Hlen. destruct t; cbn [decode_field encode_field].
  - f_equal. pose proof (le_val_range bs) as R. rewrite Hlen in R.
    unfold signed. destruct (Z.ltb_spec (le_val bs) (2 ^ (8 - 1))).
    + rewrite <- Hlen. apply le_bytes_le_val.
    + replace (le_val bs - 2 ^ 8) with (le_val bs + (-1) * 256 ^ Z.of_nat (width I8))
        by (change (2 ^ 8) with (256 ^ Z.of_nat (width I8)); ring).
      rewrite le_bytes_periodic, <- Hlen. apply le_bytes_le_val.
  - f_equal. pose proof (le_val_range bs) as R. rewrite Hlen in R.
    unfold signed. destruct (Z.ltb_spec (le_val bs) (2 ^ (16 - 1))).
    + rewrite <- Hlen. apply le_bytes_le_val.
    + replace (le_val bs - 2 ^ 16) with (le_val bs + (-1) * 256 ^ Z.of_nat (width I16))
        by (change (2 ^ 16) with (256 ^ Z.of_nat (width I16)); ring).
      rewrite le_bytes_periodic, <- Hlen. apply le_bytes_le_val.
  - f_equal. pose proof (le_val_range bs) as R. rewrite Hlen in R.
    unfold signed. destruct (Z.ltb_spec (le_val bs) (2 ^ (32 - 1))).
    + rewrite <- Hlen. apply le_bytes_le_val.
    + replace (le_val bs - 2 ^ 32) with (le_val bs + (-1) * 256 ^ Z.of_nat (width I32))
        by (change (2 ^ 32) with (256 ^ Z.of_nat (width I32)); ring).
      rewrite le_bytes_periodic, <- Hlen. apply le_bytes_le_val.
  - f_equal. rewrite <- Hlen. apply le_bytes_le_val.
  - f_equal. rewrite <- Hlen. apply le_bytes_le_val.
  - f_equal. cbn in Hlen. subst w.
    rewrite firstn_all2 by apply rstrip_nul_length. apply rstrip_nul_pad.
Qed.

Lemma encode_decode_item (dt : dtype) (bs : list Byte.byte) :
  List.length bs = itemsize dt ->
  encode_item dt (decode_item dt bs) = Some bs.
Proof.
  revert bs; induction dt as [|[n t] r IH]; intros bs Hlen.
  - destruct bs; [reflexivity | discriminate].
  - cbn [decode_item encode_item itemsize] in *.
    rewrite encode_decode_field
      by (rewrite length_firstn; lia).
    rewrite IH by (rewrite length_skipn; lia).
    now rewrite firstn_skipn.
Qed.

(** ** [read_record] *)

Lemma read_record_eq (home : string) (fs : fsys) (r : Z) (ah ch : ndarray)
    (e1 e2 ib0 ib1 ib2 : Z) :
  read_headers home fs = Ok (ah, ch) ->
  bind (hdr_field ah "ENDPT1") py_int = Ok e1 ->
  bind (hdr_field ah "ENDPT2") py_int = Ok e2 ->
  bind (hdr_field ah "IBIAS0") py_as_int = Ok ib0 ->
  bind (hdr_field ah "IBIAS1") py_as_int = Ok ib1 ->
  bind (hdr_field ch "IBIAS2") py_as_int = Ok ib2 ->
  read_record home fs r =
    if r <=? e2 then
      if r <=? e1 then read_from fs (AST_DB_PATH home) (835 * (r - ib0 - 1)) AST_DTYPE (Some 1%nat)
      else read_from fs (AST_DB_PATH home) (835 * (r - ib1 - 1)) AST_DTYPE (Some 1%nat)
    else read_from fs (COM_DB_PATH home) (976 * (r - ib2 - 1)) COM_DTYPE (Some 1%nat).
Proof.
  intros Hh H1 H2 H0 Hb1 Hb2. unfold read_record.
  rewrite Hh. cbn [bind]. rewrite H2. cbn [bind].
  destruct (r <=? e2); [|now rewrite Hb2].
  rewrite H1. cbn [bind].
  destruct (r <=? e1); [now rewrite H0 | now rewrite Hb1].
Qed.



Lemma sample_headers :
  read_headers sample_home sample_fs =
    Ok ({| arr_dtype := ast_hdr_dtype; arr_items := [sample_ast_header] |},
        {| arr_dtype := com_hdr_dtype; arr_items := [sample_com_header] |}).
Proof. vm_compute. reflexivity. Qed.

(** [C1] For every record number [r], with the header values ENDPT1 <= ENDPT2
    (the header invariant of the spec), [read_record] reads the asteroid file
    at [835 * (r - IBIAS0 - 1)] when [r <= ENDPT1], the asteroid file at
    [835 * (r - IBIAS1 - 1)] when [ENDPT1 < r <= ENDPT2], and the comet file at
    [976 * (r - IBIAS2 - 1)] otherwise; so [ENDPT1] itself is numbered and
    [ENDPT1 + 1] is unnumbered (when it is at most ENDPT2). *)
Theorem read_record_trichotomy (home : string) (fs : fsys) (ah ch : ndarray)
    (e1 e2 ib0 ib1 ib2 : Z) :
  read_headers home fs = Ok (ah, ch) ->
  bind (hdr_field ah "ENDPT1") py_int = Ok e1 ->
  bind (hdr_field ah "ENDPT2") py_int = Ok e2 ->
  bind (hdr_field ah "IBIAS0") py_as_int = Ok ib0 ->
  bind (hdr_field ah "IBIAS1") py_as_int = Ok ib1 ->
  bind (hdr_field ch "IBIAS2") py_as_int = Ok ib2 ->
  e1 <= e2 ->
  (forall r, r <= e1 ->
     read_record home fs r =
       read_from fs (AST_DB_PATH home) (835 * (r - ib0 - 1)) AST_DTYPE (Some 1%nat)) /\
  (forall r, e1 < r <= e2 ->
     read_record home fs r =
       read_from fs (AST_DB_PATH home) (835 * (r - ib1 - 1)) AST_DTYPE (Some 1%nat)) /\
  (forall r, e2 < r ->
     read_record home fs r =
       read_from fs (COM_DB_PATH home) (976 * (r - ib2 - 1)) COM_DTYPE (Some 1%nat)) /\
  read_record home fs e1 =
    read_from fs (AST_DB_PATH home) (835 * (e1 - ib0 - 1)) AST_DTYPE (Some 1%nat) /\
  (e1 + 1 <= e2 ->
   read_record home fs (e1 + 1) =
     read_from fs (AST_DB_PATH home) (835 * (e1 + 1 - ib1 - 1)) AST_DTYPE (Some 1%nat)).
Proof.
  intros Hh H1 H2 H0 Hb1 Hb2 Hle.
  assert (E : forall r, read_record home fs r = _) by
    (intro r; exact (read_record_eq home fs r ah ch e1 e2 ib0 ib1 ib2 Hh H1 H2 H0 Hb1 Hb2)).
  repeat split; intros; rewrite E;
    repeat match goal with
           | |- context [?a <=? ?b] => destruct (Z.leb_spec a b)
           end; try reflexivity; lia.
Qed.

Lemma read_record_trichotomy_witness :
  read_record sample_home sample_fs 3 =
    read_from sample_fs (AST_DB_PATH sample_home) (835 * (3 - (-2) - 1)) AST_DTYPE (Some 1%nat).
Proof.
  refine (proj1 (proj2 (read_record_trichotomy sample_home sample_fs _ _ 2 4 (-1) (-2) 3
            sample_headers _ _ _ _ _ _)) 3 _);
    first [vm_compute; reflexivity | lia].
Defined.




(** ** Record sizes *)

(** [C3] counterexample: the asteroid record dtype is 835 bytes long, not
    144. *)
Lemma ast_record_size_not_144 : itemsize AST_DTYPE = 835%nat /\ itemsize AST_DTYPE <> 144%nat.
Proof. split; vm_compute; [reflexivity | discriminate]. Qed.

(** [C3] as amended: [AST_DTYPE] has 117 fields of fixed widths (4 int32,
    58 float64, 8 int8, 2 int16, 33 float32, then 12 byte strings) totalling
    835 bytes; this record size is the per-record stride of the asteroid-file
    offsets in [read_record] (consecutive numbered records lie one record
    apart), and [asteroid_db] skips the first 835 bytes, the header block,
    before reading consecutive records. *)
Theorem ast_record_layout (home : string) (fs : fsys) (ah ch : ndarray)
    (e1 e2 ib0 ib1 ib2 : Z) (r : Z) :
  List.length AST_DTYPE = 117%nat /\
  map (fun f => width (snd f)) AST_DTYPE =
    repeat 4%nat 4 ++ repeat 8%nat 58 ++ repeat 1%nat 8 ++ repeat 2%nat 2 ++ repeat 4%nat 33 ++
    [4; 6; 12; 5; 5; 9; 41; 80; 13; 8; 10; 18]%nat /\
  itemsize AST_DTYPE = 835%nat /\
  asteroid_db home fs = read_from fs (AST_DB_PATH home) 835 AST_DTYPE None /\
  (read_headers home fs = Ok (ah, ch) ->
   bind (hdr_field ah "ENDPT1") py_int = Ok e1 ->
   bind (hdr_field ah "ENDPT2") py_int = Ok e2 ->
   bind (hdr_field ah "IBIAS0") py_as_int = Ok ib0 ->
   bind (hdr_field ah "IBIAS1") py_as_int = Ok ib1 ->
   bind (hdr_field ch "IBIAS2") py_as_int = Ok ib2 ->
   r + 1 <= e1 -> r + 1 <= e2 ->
   read_record home fs r =
     read_from fs (AST_DB_PATH home) (835 * (r - ib0 - 1)) AST_DTYPE (Some 1%nat) /\
   read_record home fs (r + 1) =
     read_from fs (AST_DB_PATH home) (835 * (r - ib0 - 1) + Z.of_nat (itemsize AST_DTYPE))
       AST_DTYPE (Some 1%nat)).
Proof.
  split; [reflexivity|]. split; [reflexivity|]. split; [reflexivity|].
  split; [reflexivity|].
  intros Hh H1 H2 H0 Hb1 Hb2 Hr Hr'.
  rewrite !(read_record_eq home fs _ ah ch e1 e2 ib0 ib1 ib2 Hh H1 H2 H0 Hb1 Hb2).
  repeat match goal with
         | |- context [?a <=? ?b] => destruct (Z.leb_spec a b)
         end; try lia.
  split; [reflexivity|]. f_equal. vm_compute (Z.of_nat _). ring.
Qed.

Lemma ast_record_layout_witness :
  read_record sample_home sample_fs 2 =
    read_from sample_fs (AST_DB_PATH sample_home) (835 * (1 - (-1) - 1) + Z.of_nat (itemsize AST_DTYPE))
      AST_DTYPE (Some 1%nat).
Proof.
  refine (proj2 (proj2 (proj2 (proj2 (proj2 (ast_record_layout sample_home sample_fs _ _ 2 4 (-1) (-2) 3 1))))
            sample_headers _ _ _ _ _ _ _)); first [vm_compute; reflexivity | lia].
Defined.

(** ** Headers *)

(** [C6] counterexample: with the asteroid file cut to 10 bytes (the header
    dtype is 86 bytes), [read_headers] raises nothing: it returns an empty
    asteroid header array. *)
Lemma read_headers_truncated_no_error :
  (List.length (firstn 10 sample_ast_file) < itemsize ast_hdr_dtype)%nat /\
  read_headers sample_home truncated_fs =
    Ok ({| arr_dtype := ast_hdr_dtype; arr_items := [] |},
        {| arr_dtype := com_hdr_dtype; arr_items := [sample_com_header] |}).
Proof. split; vm_compute; [lia | reflexivity]. Qed.

Lemma np_fromfile_short (bs : list Byte.byte) (dt : dtype) :
  (List.length bs < itemsize dt)%nat -> arr_items (np_fromfile bs dt (Some 1%nat)) = [].
Proof.
  intros Hl. unfold np_fromfile. cbn [take_items arr_items].
  destruct (Nat.ltb_spec (List.length bs) (itemsize dt)); [reflexivity | lia].
Qed.

(** [C6] as amended: [read_headers] checks no length.  It returns the
    header arrays [np.fromfile] gives, and when a header file is shorter
    than its header dtype (86 bytes for asteroids, 82 for comets) that array
    is empty, with no error; for a short asteroid file the failure surfaces
    only when [read_record] indexes a header field ([IndexError]). *)
Theorem read_headers_short_empty (home : string) (fs : fsys) (ba bc : list Byte.byte) :
  read_file fs (AST_DB_PATH home) = Ok ba ->
  read_file fs (COM_DB_PATH home) = Ok bc ->
  read_headers home fs =
    Ok (np_fromfile ba ast_hdr_dtype (Some 1%nat), np_fromfile bc com_hdr_dtype (Some 1%nat)) /\
  ((List.length ba < itemsize ast_hdr_dtype)%nat ->
   arr_items (np_fromfile ba ast_hdr_dtype (Some 1%nat)) = [] /\
   forall r, read_record home fs r = Err IndexError) /\
  ((List.length bc < itemsize com_hdr_dtype)%nat ->
   arr_items (np_fromfile bc com_hdr_dtype (Some 1%nat)) = []).
Proof.
  intros Ha Hc.
  assert (Hh : read_headers home fs =
    Ok (np_fromfile ba ast_hdr_dtype (Some 1%nat), np_fromfile bc com_hdr_dtype (Some 1%nat))).
  { unfold read_headers, read_from. fold (AST_DB_PATH home) (COM_DB_PATH home).
    rewrite Ha, Hc. reflexivity. }
  split; [exact Hh|]. split.
  - intros Hl. pose proof (np_fromfile_short ba ast_hdr_dtype Hl) as E.
    split; [exact E|]. intros r. unfold read_record. rewrite Hh. cbn [bind].
    unfold hdr_field, getfield.
    change (arr_dtype (np_fromfile ba ast_hdr_dtype (Some 1%nat))) with ast_hdr_dtype.
    rewrite E. reflexivity.
  - apply np_fromfile_short.
Qed.

Lemma read_headers_short_empty_witness :
  read_record sample_home truncated_fs 1 = Err IndexError.
Proof.
  refine (proj2 (proj1 (proj2 (read_headers_short_empty sample_home truncated_fs
            (firstn 10 sample_ast_file) sample_com_file _ _)) _) 1);
    vm_compute; first [reflexivity | lia].
Defined.

(** ** Decoding and re-encoding *)

Lemma take_items_length (sz c : nat) (bs it : list Byte.byte) :
  In it (take_items sz c bs) -> List.length it = sz.
Proof.
  revert bs; induction c as [|c IH]; intros bs Hin; cbn [take_items] in Hin; [contradiction|].
  destruct (Nat.ltb_spec (List.length bs) sz); [contradiction|].
  destruct Hin as [<- | Hin]; [rewrite length_firstn; lia | eauto].
Qed.

Lemma read_from_items (fs : fsys) (p : string) (off : Z) (dt : dtype) c (a : ndarray) :
  read_from fs p off dt c = Ok a ->
  arr_dtype a = dt /\ forall it, In it (arr_items a) -> List.length it = itemsize dt.
Proof.
  unfold read_from. destruct (read_file fs p); cbn [bind]; [|discriminate].
  destruct (off <? 0); [discriminate|]. intros E; injection E as <-.
  split; [reflexivity|]. intros it Hin. eapply take_items_length; exact Hin.
Qed.

Ltac split_binds H :=
  repeat match type of H with
         | context [bind ?m _] =>
             let E := fresh "E" in
             destruct m eqn:E; cbn [bind] in H; [|discriminate H]
         | context [if ?c then _ else _] =>
             let E := fresh "C" in destruct c eqn:E
         end.

Lemma read_record_from (home : string) (fs : fsys) (r : Z) (a : ndarray) :
  read_record home fs r = Ok a ->
  exists p off dt, read_from fs p off dt (Some 1%nat) = Ok a.
Proof.
  unfold read_record. intros H.
  destruct (read_headers home fs) as [[ah ch]|]; cbn [bind] in H; [|discriminate].
  split_binds H; eauto.
Qed.

(** [C7] Decoding a byte block of the record size with the asteroid or the
    comet record dtype, and storing the decoded field values back with the
    same dtype, gives the original bytes; so does every record
    [read_record] returns, with its own dtype. *)
Theorem record_roundtrip (bs : list Byte.byte) :
  (List.length bs = itemsize AST_DTYPE ->
   encode_item AST_DTYPE (decode_item AST_DTYPE bs) = Some bs) /\
  (List.length bs = itemsize COM_DTYPE ->
   encode_item COM_DTYPE (decode_item COM_DTYPE bs) = Some bs) /\
  (forall home fs r a, read_record home fs r = Ok a -> In bs (arr_items a) ->
   encode_item (arr_dtype a) (decode_item (arr_dtype a) bs) = Some bs).
Proof.
  split; [apply encode_decode_item|]. split; [apply encode_decode_item|].
  intros home fs r a Hr Hin.
  destruct (read_record_from home fs r a Hr) as (p & off & dt & Hf).
  destruct (read_from_items fs p off dt _ a Hf) as [Hdt Hlen].
  apply encode_decode_item. rewrite Hdt. auto.
Qed.

Lemma record_roundtrip_witness :
  encode_item AST_DTYPE (decode_item AST_DTYPE (sample_ast_record 1))
    = Some (sample_ast_record 1).
Proof.
  apply (proj1 (record_roundtrip (sample_ast_record 1))).
  vm_compute. reflexivity.
Defined.

(** ** Name search *)

(** [C4] failing input: the query ["E.os"] selects the index line of 433
    Eros, in which ["e.os"] does not occur as a word; the [.] is taken as a
    pattern metacharacter.  (The query ["Eros"] selects that line only, and
    not the line of Aeros.) *)
Lemma name_search_dot_query :
  string_record_from_name sample_home sample_fs "E.os" = Ok [eros_line] /\
  spec_whole_word_match "E.os" eros_line = false /\
  string_record_from_name sample_home sample_fs "Eros" = Ok [eros_line].
Proof. vm_compute. repeat split. Qed.

(** [C9] The name search reads the query as a regular expression: the
    non-empty query ["("] makes it raise a pattern error, and the query
    ["1P.Halley"] selects the line of [1P/Halley], where ["1p.halley"] does
    not occur literally. *)
Theorem name_search_is_regex :
  string_record_from_name sample_home sample_fs "(" = Err ReError /\
  string_record_from_name sample_home sample_fs "1P.Halley" = Ok [halley_line] /\
  spec_whole_word_match "1P.Halley" halley_line = false.
Proof. vm_compute. repeat split. Qed.

(** ** Merged view *)

Lemma take_items_len (sz c : nat) (bs : list Byte.byte) :
  (0 < sz)%nat -> List.length (take_items sz c bs) = Nat.min c (List.length bs / sz).
Proof.
  intros Hsz. revert bs; induction c as [|c IH]; intros bs; [reflexivity|].
  cbn [take_items]. destruct (Nat.ltb_spec (List.length bs) sz) as [Hl|Hl].
  - rewrite Nat.div_small by exact Hl. reflexivity.
  - cbn [List.length]. rewrite IH, length_skipn.
    replace (List.length bs) with (1 * sz + (List.length bs - sz))%nat at 2 by lia.
    rewrite Nat.div_add_l by lia. reflexivity.
Qed.

Lemma take_items_nth (sz c : nat) (bs : list Byte.byte) (k : nat) :
  (0 < sz)%nat -> (k < Nat.min c (List.length bs / sz))%nat ->
  nth_error (take_items sz c bs) k = Some (firstn sz (skipn (k * sz) bs)).
Proof.
  intros Hsz. revert bs k; induction c as [|c IH]; intros bs k Hk; [cbn in Hk; lia|].
  cbn [take_items]. destruct (Nat.ltb_spec (List.length bs) sz) as [Hl|Hl].
  - rewrite Nat.div_small in Hk by exact Hl. lia.
  - destruct k as [|k]; [reflexivity|]. cbn [nth_error].
    replace (List.length bs) with (1 * sz + (List.length bs - sz))%nat in Hk by lia.
    rewrite Nat.div_add_l in Hk by lia.
    rewrite IH by (rewrite length_skipn; lia).
    rewrite skipn_skipn. f_equal. f_equal. f_equal. lia.
Qed.

Lemma read_from_all (fs : fsys) (p : string) (bs : list Byte.byte) (off : nat) (dt : dtype) :
  read_file fs p = Ok bs -> (0 < itemsize dt)%nat ->
  exists a, read_from fs p (Z.of_nat off) dt None = Ok a /\ arr_dtype a = dt /\
    List.length (arr_items a) = ((List.length bs - off) / itemsize dt)%nat /\
    forall k, (k < (List.length bs - off) / itemsize dt)%nat ->
      nth_error (arr_items a) k = Some (firstn (itemsize dt) (skipn (off + k * itemsize dt) bs)).
Proof.
  intros Hf Hsz. unfold read_from. rewrite Hf. cbn [bind].
  destruct (Z.ltb_spec (Z.of_nat off) 0) as [H0|H0]; [lia|].
  eexists. split; [reflexivity|]. rewrite Nat2Z.id. unfold np_fromfile; cbn [arr_dtype arr_items].
  assert (Hm : Nat.min (List.length (skipn off bs)) (List.length (skipn off bs) / itemsize dt)
               = ((List.length bs - off) / itemsize dt)%nat).
  { rewrite length_skipn. apply Nat.min_r. apply Nat.Div0.div_le_upper_bound; nia. }
  split; [reflexivity|]. split.
  - rewrite take_items_len by exact Hsz. exact Hm.
  - intros k Hk. rewrite take_items_nth by (try rewrite Hm; assumption).
    rewrite skipn_skipn. do 3 f_equal. lia.
Qed.

(** the item [k] of a whole-file read from [off] is what a one-item read at
    [off + k * itemsize] returns *)
Lemma read_from_item (fs : fsys) (p : string) (off k : nat) (dt : dtype) (a : ndarray)
    (it : list Byte.byte) :
  (0 < itemsize dt)%nat ->
  read_from fs p (Z.of_nat off) dt None = Ok a ->
  nth_error (arr_items a) k = Some it ->
  read_from fs p (Z.of_nat (off + k * itemsize dt)) dt (Some 1%nat)
    = Ok {| arr_dtype := dt; arr_items := [it] |}.
Proof.
  intros Hsz Ha Hk.
  destruct (read_file fs p) as [bs|e] eqn:Hf;
    [|unfold read_from in Ha; rewrite Hf in Ha; discriminate].
  destruct (read_from_all fs p bs off dt Hf Hsz) as (a' & Ha' & _ & Hl & Hn).
  rewrite Ha in Ha'. injection Ha' as <-.
  assert (Hlt : (k < (List.length bs - off) / itemsize dt)%nat).
  { rewrite <- Hl. apply nth_error_Some. rewrite Hk. discriminate. }
  rewrite (Hn k Hlt) in Hk. injection Hk as <-.
  assert (Hroom : (itemsize dt * (k + 1) <= List.length bs - off)%nat).
  { pose proof (Nat.Div0.mul_div_le (List.length bs - off) (itemsize dt)). nia. }
  unfold read_from. rewrite Hf. cbn [bind].
  destruct (Z.ltb_spec (Z.of_nat (off + k * itemsize dt)) 0); [lia|].
  unfold np_fromfile. rewrite Nat2Z.id. cbn [take_items].
  rewrite length_skipn.
  destruct (Nat.ltb_spec (List.length bs - (off + k * itemsize dt)) (itemsize dt)); [nia|].
  reflexivity.
Qed.

Lemma field_slot_bounds (dt : dtype) (n : string) (o off : nat) (t : ftype) :
  field_slot dt n o = Some (off, t) -> (o <= off /\ off + width t <= o + itemsize dt)%nat.
Proof.
  revert o; induction dt as [|[m u] r IH]; intros o H; cbn [field_slot] in H; [discriminate|].
  cbn [itemsize].
  destruct (String.eqb m n); [injection H as <- <-; lia|].
  apply IH in H. lia.
Qed.

Lemma slot_of_length (dt : dtype) (l : list string) :
  (List.length (flat_map (slot_of dt) l) <= List.length l)%nat.
Proof.
  induction l as [|n l IH]; cbn [flat_map List.length]; [lia|].
  unfold slot_of at 1. destruct (field_slot dt n O) as [[off t]|]; cbn; lia.
Qed.

Lemma slots_forall2 (dt : dtype) (names : list string) :
  List.length (flat_map (slot_of dt) names) = List.length names ->
  Forall2 (fun n (x : string * nat * ftype) =>
             let '(m, off, t) := x in m = n /\ field_slot dt n O = Some (off, t))
          names (flat_map (slot_of dt) names).
Proof.
  induction names as [|n l IH]; intros H; cbn [flat_map] in *; [constructor|].
  unfold slot_of at 1 in H. unfold slot_of at 1. destruct (field_slot dt n O) as [[off t]|] eqn:E.
  - cbn in H |- *. constructor; [auto | apply IH; lia].
  - cbn [app List.length] in H. pose proof (slot_of_length dt l). lia.
Qed.

Lemma decode_concat (slots : list (string * nat * ftype)) (it : list Byte.byte) :
  Forall (fun x : string * nat * ftype =>
            let '(_, off, t) := x in (off + width t <= List.length it)%nat) slots ->
  decode_item (map (fun '(n, _, t) => (n, t)) slots)
              (flat_map (fun '(_, off, t) => firstn (width t) (skipn off it)) slots)
  = map (fun '(n, off, t) => (n, decode_field t (firstn (width t) (skipn off it)))) slots.
Proof.
  induction 1 as [|[[n off] t] r Hx _ IH]; [reflexivity|].
  cbn in Hx. cbn [map flat_map decode_item].
  assert (Hl : List.length (firstn (width t) (skipn off it)) = width t)
    by (rewrite length_firstn, length_skipn; lia).
  rewrite firstn_app, skipn_app, Hl, Nat.sub_diag, firstn_O, app_nil_r, skipn_O.
  rewrite (firstn_all2 (firstn (width t) (skipn off it))) by lia.
  rewrite (skipn_all2 (firstn (width t) (skipn off it))) by lia. cbn [app].
  rewrite IH. reflexivity.
Qed.

Lemma field_value_item (dt : dtype) (it : list Byte.byte) (n : string) (off : nat) (t : ftype) :
  field_slot dt n O = Some (off, t) ->
  field_value {| arr_dtype := dt; arr_items := [it] |} n
    = Ok (decode_field t (firstn (width t) (skipn off it))).
Proof. intros H. unfold field_value, getfield. cbn [arr_dtype]. rewrite H. reflexivity. Qed.

(** the table [entire_db] builds from a selection: its columns are the
    names selected, and its row [k] holds the values of those fields in
    item [k] *)
Lemma select_rows (dt : dtype) (names : list string) (a s : ndarray) :
  arr_dtype a = dt -> select_fields a names = Ok s ->
  colnames (Table_of_array s) = names /\
  forall k it, nth_error (arr_items a) k = Some it -> List.length it = itemsize dt ->
    exists row, nth_error (trows (Table_of_array s)) k = Some row /\
      Forall2 (fun n c => exists v, field_value {| arr_dtype := dt; arr_items := [it] |} n = Ok v
                                    /\ c = cell_of v) names row.
Proof.
  intros Hd H. unfold select_fields in H. rewrite Hd in H.
  destruct (has_dup names); [discriminate|].
  destruct (List.length (flat_map (slot_of dt) names) =? List.length names)%nat eqn:El;
    cbn [negb] in H; [|discriminate]. injection H as <-.
  apply Nat.eqb_eq, slots_forall2 in El.
  set (slots := flat_map (slot_of dt) names) in *. clearbody slots.
  split.
  - unfold Table_of_array, dtype_names. cbn [arr_dtype colnames].
    induction El as [|n [[m off] t] l sl [-> _] _ IH]; [reflexivity|]. cbn. f_equal. exact IH.
  - intros k it Hk Hit. unfold Table_of_array. cbn [arr_dtype arr_items trows].
    rewrite !nth_error_map, Hk. cbn [option_map]. eexists. split; [reflexivity|].
    rewrite decode_concat.
    + induction El as [|n [[m off] t] l sl [-> Hs] _ IH]; cbn [map]; constructor; [|exact IH].
      exists (decode_field t (firstn (width t) (skipn off it))). split; [|reflexivity].
      apply field_value_item, Hs.
    + clear - El Hit. induction El as [|n [[m off] t] l sl [-> Hs] _ IH]; constructor; [|exact IH].
      apply field_slot_bounds in Hs. lia.
Qed.

Lemma in_names (x : string) (l : list string) : In x l -> existsb (String.eqb x) l = true.
Proof. intros H. apply existsb_exists. exists x. split; [exact H | apply String.eqb_refl]. Qed.

Lemma bulk_db_dtype (fs : fsys) (p : string) (off : Z) (dt : dtype) (a : ndarray) :
  read_from fs p off dt None = Ok a ->
  arr_dtype a = dt /\ forall k it, nth_error (arr_items a) k = Some it -> List.length it = itemsize dt.
Proof.
  intros H. destruct (read_from_items fs p off dt None a H) as [Hd Hl].
  split; [exact Hd|]. intros k it Hk. apply Hl. eapply nth_error_In; exact Hk.
Qed.

(** [C5] counterexample: the absolute magnitude [H] and the MOID are fields
    of both the asteroid and the comet dtype, yet [entire_db] selects
    neither. *)
Lemma merged_view_not_orbital :
  existsb (String.eqb "H") (dtype_names AST_DTYPE) = true /\
  existsb (String.eqb "MOID") (dtype_names AST_DTYPE) = true /\
  existsb (String.eqb "H") (dtype_names COM_DTYPE) = true /\
  existsb (String.eqb "MOID") (dtype_names COM_DTYPE) = true /\
  existsb (String.eqb "H") (entire_db_fields AST_DTYPE) = false /\
  existsb (String.eqb "MOID") (entire_db_fields AST_DTYPE) = false /\
  existsb (String.eqb "H") (entire_db_fields COM_DTYPE) = false /\
  existsb (String.eqb "MOID") (entire_db_fields COM_DTYPE) = false.
Proof. vm_compute. repeat split. Qed.

(** [C5] as amended: [entire_db] selects from each database the fields
    [names[:17] + names[-4:-3] + names[-2:]] of its dtype: the record id and
    observation counts, the element block EPOCH .. SOLDAT, DESIG, IREF and
    the name (ASTNAM, resp. COMNAM), so not H or MOID.  Whatever table the
    final [vstack] call builds from the two selected tables (if it keeps only
    columns of its inputs) has no H or MOID column.  Row [k] of the selected
    asteroid (comet) table holds, field by field, the values of the record
    [read_record] returns for the record number IBIAS + 2 + k of its branch
    (IBIAS0 for numbered asteroids, IBIAS1 for unnumbered ones, IBIAS2 for
    comets), which is item [k] of the database. *)
Theorem entire_db_field_selection (home : string) (vstack : table -> table -> result table)
    (fs : fsys) (ah ch : ndarray) (e1 e2 ib0 ib1 ib2 : Z) :
  entire_db_fields AST_DTYPE =
    ["NO"; "NOBS"; "OBSFRST"; "OBSLAST"; "EPOCH"; "CALEPO"; "MA"; "W"; "OM"; "IN";
     "EC"; "A"; "QR"; "TP"; "TPCAL"; "TPFRAC"; "SOLDAT"; "DESIG"; "IREF"; "ASTNAM"] /\
  entire_db_fields COM_DTYPE =
    ["NO"; "NOBS"; "OBSFRST"; "OBSLAST"; "EPOCH"; "CALEPO"; "MA"; "W"; "OM"; "IN";
     "EC"; "A"; "QR"; "TP"; "TPCAL"; "TPFRAC"; "SOLDAT"; "DESIG"; "IREF"; "COMNAM"] /\
  ((forall t1 t2 t, vstack t1 t2 = Ok t ->
      forall c, In c (colnames t) -> In c (colnames t1) \/ In c (colnames t2)) ->
   forall t, entire_db home vstack fs = Ok t -> ~ In "H" (colnames t) /\ ~ In "MOID" (colnames t)) /\
  (read_headers home fs = Ok (ah, ch) ->
   bind (hdr_field ah "ENDPT1") py_int = Ok e1 ->
   bind (hdr_field ah "ENDPT2") py_int = Ok e2 ->
   bind (hdr_field ah "IBIAS0") py_as_int = Ok ib0 ->
   bind (hdr_field ah "IBIAS1") py_as_int = Ok ib1 ->
   bind (hdr_field ch "IBIAS2") py_as_int = Ok ib2 ->
   (forall a, asteroid_db home fs = Ok a ->
    exists s, select_fields a (entire_db_fields AST_DTYPE) = Ok s /\
      colnames (Table_of_array s) = entire_db_fields AST_DTYPE /\
      forall k it, nth_error (arr_items a) k = Some it ->
        (forall r, (r <= e2 /\ r <= e1 /\ r = ib0 + 2 + Z.of_nat k \/
                    r <= e2 /\ e1 < r /\ r = ib1 + 2 + Z.of_nat k) ->
           read_record home fs r = Ok {| arr_dtype := AST_DTYPE; arr_items := [it] |}) /\
        exists row, nth_error (trows (Table_of_array s)) k = Some row /\
          Forall2 (fun n c => exists v,
                     field_value {| arr_dtype := AST_DTYPE; arr_items := [it] |} n = Ok v /\
                     c = cell_of v) (entire_db_fields AST_DTYPE) row) /\
   (forall c, comet_db home fs = Ok c ->
    exists s, select_fields c (entire_db_fields COM_DTYPE) = Ok s /\
      colnames (Table_of_array s) = entire_db_fields COM_DTYPE /\
      forall k it, nth_error (arr_items c) k = Some it ->
        (forall r, e2 < r -> r = ib2 + 2 + Z.of_nat k ->
           read_record home fs r = Ok {| arr_dtype := COM_DTYPE; arr_items := [it] |}) /\
        exists row, nth_error (trows (Table_of_array s)) k = Some row /\
          Forall2 (fun n c => exists v,
                     field_value {| arr_dtype := COM_DTYPE; arr_items := [it] |} n = Ok v /\
                     c = cell_of v) (entire_db_fields COM_DTYPE) row)).
Proof.
  split; [reflexivity|]. split; [reflexivity|]. split.
  - intros Hv t Ht. unfold entire_db in Ht.
    destruct (asteroid_db home fs) as [a|] eqn:Ea; cbn [bind] in Ht; [|discriminate].
    destruct (comet_db home fs) as [c|] eqn:Ec; cbn [bind] in Ht; [|discriminate].
    unfold asteroid_db in Ea. unfold comet_db in Ec.
    destruct (bulk_db_dtype _ _ _ _ _ Ea) as [Hda _].
    destruct (bulk_db_dtype _ _ _ _ _ Ec) as [Hdc _].
    destruct (select_fields a _) as [sa|] eqn:Sa; cbn [bind] in Ht; [|discriminate].
    destruct (select_fields c _) as [sc|] eqn:Sc; cbn [bind] in Ht; [|discriminate].
    rewrite Hda in Sa. rewrite Hdc in Sc.
    destruct (select_rows _ _ _ _ Hda Sa) as [Ca _].
    destruct (select_rows _ _ _ _ Hdc Sc) as [Cc _].
    split; intros Hin; destruct (Hv _ _ _ Ht _ Hin) as [Hx | Hx];
      rewrite ?Ca, ?Cc in Hx; apply in_names in Hx; vm_compute in Hx; discriminate Hx.
  - intros Hh H1 H2 H0 Hb1 Hb2. split.
    + intros a Ha. unfold asteroid_db in Ha.
      destruct (bulk_db_dtype _ _ _ _ _ Ha) as [Hd Hl].
      destruct a as [dt items]; cbn [arr_dtype arr_items] in *; subst dt.
      eexists. split; [reflexivity|].
      match goal with |- colnames (Table_of_array ?s) = _ /\ _ =>
        assert (Hs : select_fields {| arr_dtype := AST_DTYPE; arr_items := items |}
                                   (entire_db_fields AST_DTYPE) = Ok s) by reflexivity end.
      destruct (select_rows _ _ _ _ eq_refl Hs) as [Hc Hrow].
      split; [exact Hc|]. intros k it Hk. split.
      * intros r Hr.
        rewrite (read_record_eq home fs r ah ch e1 e2 ib0 ib1 ib2 Hh H1 H2 H0 Hb1 Hb2).
        assert (Hsz : (0 < itemsize AST_DTYPE)%nat) by (vm_compute; lia).
        pose proof (read_from_item fs (AST_DB_PATH home) 835 k AST_DTYPE _ it Hsz Ha Hk) as R.
        destruct Hr as [(Hr2 & Hr1 & ->) | (Hr2 & Hr1 & ->)];
          repeat match goal with
                 | |- context [?x <=? ?y] => destruct (Z.leb_spec x y)
                 end; try lia; rewrite <- R; f_equal;
          change (itemsize AST_DTYPE) with 835%nat; lia.
      * apply Hrow; [exact Hk | apply (Hl k it Hk)].
    + intros c Hc. unfold comet_db in Hc.
      destruct (bulk_db_dtype _ _ _ _ _ Hc) as [Hd Hl].
      destruct c as [dt items]; cbn [arr_dtype arr_items] in *; subst dt.
      eexists. split; [reflexivity|].
      match goal with |- colnames (Table_of_array ?s) = _ /\ _ =>
        assert (Hs : select_fields {| arr_dtype := COM_DTYPE; arr_items := items |}
                                   (entire_db_fields COM_DTYPE) = Ok s) by reflexivity end.
      destruct (select_rows _ _ _ _ eq_refl Hs) as [Hcn Hrow].
      split; [exact Hcn|]. intros k it Hk. split.
      * intros r Hr Hr'.
        rewrite (read_record_eq home fs r ah ch e1 e2 ib0 ib1 ib2 Hh H1 H2 H0 Hb1 Hb2).
        assert (Hsz : (0 < itemsize COM_DTYPE)%nat) by (vm_compute; lia).
        pose proof (read_from_item fs (COM_DB_PATH home) 976 k COM_DTYPE _ it Hsz Hc Hk) as R.
        subst r.
        repeat match goal with
               | |- context [?x <=? ?y] => destruct (Z.leb_spec x y)
               end; try lia. rewrite <- R. f_equal.
        change (itemsize COM_DTYPE) with 976%nat. lia.
      * apply Hrow; [exact Hk | apply (Hl k it Hk)].
Qed.

Lemma entire_db_field_selection_witness :
  match entire_db sample_home stack_rows sample_fs with
  | Ok t => ~ In "H" (colnames t) /\ ~ In "MOID" (colnames t)
  | Err _ => False
  end /\
  read_record sample_home sample_fs 3
    = Ok {| arr_dtype := AST_DTYPE; arr_items := [sample_ast_record 3] |}.
Proof.
  pose proof (entire_db_field_selection sample_home stack_rows sample_fs
              {| arr_dtype := ast_hdr_dtype; arr_items := [sample_ast_header] |}
              {| arr_dtype := com_hdr_dtype; arr_items := [sample_com_header] |} 2 4 (-1) (-2) 3)
    as (_ & _ & Hv & Hr).
  split.
  - destruct (entire_db sample_home stack_rows sample_fs) as [t|e] eqn:E.
    + apply (Hv ltac:(intros t1 t2 t' Ht c Hc; unfold stack_rows in Ht;
                      injection Ht as <-; left; exact Hc) t eq_refl).
    + vm_compute in E. discriminate E.
  - destruct (asteroid_db sample_home sample_fs) as [a|e] eqn:Ea;
      [|vm_compute in Ea; discriminate Ea].
    destruct (Hr sample_headers ltac:(vm_compute; reflexivity) ltac:(vm_compute; reflexivity)
                ltac:(vm_compute; reflexivity) ltac:(vm_compute; reflexivity)
                ltac:(vm_compute; reflexivity)) as [Ha _].
    destruct (Ha a eq_refl) as (s & _ & _ & Hk).
    apply (proj1 (Hk 3%nat (sample_ast_record 3) ltac:(vm_compute in Ea; injection Ea as <-;
                                                        vm_compute; reflexivity))).
    right. split; [lia|]. split; lia.
Defined.

(** ** Download *)

(** [C8] When [~/.sbpy/dastcom5] exists and no update is requested,
    [download_dastcom5] raises [FileExistsError] (the error the spec calls
    NotFoundError: archive already present) and leaves the file system as
    it was. *)
Theorem download_existing_no_update (home : string) (remote_zip : list Byte.byte)
    (zip_members : list Byte.byte -> option (list (string * list Byte.byte))) (fs : fsys) :
  existsb (String.eqb (os_path_join (SBPY_LOCAL_PATH home) "dastcom5")) (fs_dirs fs) = true ->
  download_dastcom5 home remote_zip zip_members false fs = (Err FileExistsError, fs).
Proof.
  intros Hd. unfold download_dastcom5, io_bind, os_path_isdir. rewrite Hd. reflexivity.
Qed.

Lemma download_existing_no_update_witness :
  download_dastcom5 sample_home [] (fun _ => None) false sample_fs = (Err FileExistsError, sample_fs).
Proof. apply download_existing_no_update. vm_compute. reflexivity. Defined.

(** ** Orbit table *)

Lemma take_items_one (sz : nat) (bs : list Byte.byte) :
  (List.length (take_items sz 1 bs) <= 1)%nat.
Proof. cbn [take_items]. destruct (List.length bs <? sz)%nat; cbn; lia. Qed.

Lemma read_record_shape (home : string) (fs : fsys) (r : Z) (a : ndarray) :
  read_record home fs r = Ok a ->
  (arr_dtype a = AST_DTYPE \/ arr_dtype a = COM_DTYPE) /\ (List.length (arr_items a) <= 1)%nat.
Proof.
  unfold read_record. intros H.
  destruct (read_headers home fs) as [[ah ch]|]; cbn [bind] in H; [|discriminate].
  split_binds H; unfold read_from in H;
    (destruct (read_file fs _); cbn [bind] in H; [|discriminate]);
    (destruct (_ <? 0); [discriminate|]); injection H as <-; cbn [arr_dtype arr_items];
    (split; [tauto | apply take_items_one]).
Qed.


Lemma float_field_value (dt : dtype) (items : list (list Byte.byte)) (n : string) (off : nat)
    (v : fval) :
  field_slot dt n O = Some (off, F64) ->
  field_value {| arr_dtype := dt; arr_items := items |} n = Ok v -> exists b, v = VFloat b.
Proof.
  intros Hs H. unfold field_value, getfield in H. cbn [arr_dtype arr_items] in H.
  rewrite Hs in H. cbn [bind] in H. unfold item in H. cbn [arr_items] in H.
  destruct items as [|it [|it' r]]; cbn [map] in H; try discriminate.
  unfold scalar_of in H. cbn in H. injection H as <-. eexists; reflexivity.
Qed.

(** [C10] Whenever [orbit_from_record] returns a table, it has the default
    column names [col0] .. [col7], exactly two rows of eight cells, the first
    row the field names as strings and the second the record number and the
    values read for A, EC, IN, OM, W, MA (all float64 fields) and the epoch:
    the columns holding a string and a number are string columns, so the
    record number and the six elements appear as [str] of the Python value,
    and the epoch column keeps its [Time] object. *)
Theorem orbit_table_layout (home : string) (float_str : Z -> string) (fs : fsys) (r : Z)
    (t : table) :
  orbit_from_record home float_str fs r = Ok t ->
  colnames t = ["col0"; "col1"; "col2"; "col3"; "col4"; "col5"; "col6"; "col7"] /\
  List.length (trows t) = 2%nat /\
  Forall (fun row => List.length row = 8%nat) (trows t) /\
  nth 0 (trows t) [] =
    map CStr ["record"; "a"; "ecc"; "inc"; "raan"; "argp"; "m"; "EPOCH"] /\
  exists body a ecc inc raan argp m ep,
    read_record home fs r = Ok body /\
    field_value body "A" = Ok (VFloat a) /\ field_value body "EC" = Ok (VFloat ecc) /\
    field_value body "IN" = Ok (VFloat inc) /\ field_value body "OM" = Ok (VFloat raan) /\
    field_value body "W" = Ok (VFloat argp) /\ field_value body "MA" = Ok (VFloat m) /\
    field_value body "EPOCH" = Ok (VFloat ep) /\
    nth 1 (trows t) [] =
      [CStr (py_str_int r); CStr (float_str a); CStr (float_str ecc); CStr (float_str inc);
       CStr (float_str raan); CStr (float_str argp); CStr (float_str m); CTime ep].
Proof.
  unfold orbit_from_record. intros H.
  destruct (read_record home fs r) as [body|] eqn:Er; cbn [bind] in H; [|discriminate].
  assert (Hf : forall n v, In n ["A"; "EC"; "IN"; "OM"; "W"; "MA"] ->
                 field_value body n = Ok v -> exists b, v = VFloat b).
  { intros n v Hn Hv. destruct (proj1 (read_record_shape home fs r body Er)) as [Hd|Hd];
      destruct body as [dt items]; cbn [arr_dtype] in Hd; subst dt;
      destruct Hn as [<-|[<-|[<-|[<-|[<-|[<-|[]]]]]]];
      (eapply float_field_value; [|exact Hv]); vm_compute; reflexivity. }
  destruct (field_value body "A") as [a|] eqn:Ea; cbn [bind] in H; [|discriminate].
  destruct (field_value body "EC") as [ecc|] eqn:Eec; cbn [bind] in H; [|discriminate].
  destruct (field_value body "IN") as [inc|] eqn:Ein; cbn [bind] in H; [|discriminate].
  destruct (field_value body "OM") as [raan|] eqn:Eom; cbn [bind] in H; [|discriminate].
  destruct (field_value body "W") as [argp|] eqn:Ew; cbn [bind] in H; [|discriminate].
  destruct (field_value body "MA") as [m|] eqn:Ema; cbn [bind] in H; [|discriminate].
  destruct (Hf "A" a ltac:(cbn; tauto) Ea) as [a' ->].
  destruct (Hf "EC" ecc ltac:(cbn; tauto) Eec) as [ecc' ->].
  destruct (Hf "IN" inc ltac:(cbn; tauto) Ein) as [inc' ->].
  destruct (Hf "OM" raan ltac:(cbn; tauto) Eom) as [raan' ->].
  destruct (Hf "W" argp ltac:(cbn; tauto) Ew) as [argp' ->].
  destruct (Hf "MA" m ltac:(cbn; tauto) Ema) as [m' ->].
  destruct (field_value body "EPOCH") as [[z|ep|b]|] eqn:Eep; cbn [bind Time_jd] in H;
    try discriminate.
  injection H as <-.
  split; [reflexivity|]. split; [reflexivity|].
  split; [vm_compute; repeat constructor|]. split; [reflexivity|].
  exists body, a', ecc', inc', raan', argp', m', ep.
  split; [reflexivity|]. repeat (split; [assumption|]). reflexivity.
Qed.

Lemma orbit_table_layout_witness :
  match orbit_from_record sample_home (fun _ => "f") sample_fs 2 with
  | Ok t => nth 1 (trows t) [] =
              [CStr "2"; CStr "f"; CStr "f"; CStr "f"; CStr "f"; CStr "f"; CStr "f";
               CTime 4703427468236279808]
            /\ colnames t = ["col0"; "col1"; "col2"; "col3"; "col4"; "col5"; "col6"; "col7"]
  | Err _ => False
  end.
Proof.
  destruct (orbit_from_record sample_home (fun _ => "f") sample_fs 2) as [t|] eqn:E.
  - split.
    + vm_compute in E. injection E as <-. reflexivity.
    + exact (proj1 (orbit_table_layout sample_home (fun _ => "f") sample_fs 2 t E)).
  - vm_compute in E. discriminate E.
Defined.

(** * Further properties of the reader *)

(** ** Bulk reads *)

(** ** Missing files *)

Lemma read_file_err (fs : fsys) (p : string) (e : pyerr) :
  read_file fs p = Err e ->
  (e = IsADirectoryError /\ is_dir fs p = true) \/
  (e = FileNotFoundError /\ is_dir fs p = false /\ lookup p (fs_files fs) = None).
Proof.
  unfold read_file. destruct (is_dir fs p); [intros [= <-]; left; split; reflexivity|].
  destruct (lookup p (fs_files fs)); [discriminate | intros [= <-]; right; auto].
Qed.




(** ** Records read by [read_record] *)










(** ** Name search *)

Lemma list_ascii_append (a b : string) :
  list_ascii_of_string (String.append a b) = list_ascii_of_string a ++ list_ascii_of_string b.
Proof. induction a as [|c a IH]; cbn; [destruct b; reflexivity | rewrite IH; reflexivity]. Qed.

Lemma existsb_ext_eq {A} (f g : A -> bool) (l : list A) :
  (forall x, f x = g x) -> existsb f l = existsb g l.
Proof. intros H. induction l as [|x l IH]; cbn; [reflexivity | rewrite H, IH; reflexivity]. Qed.

Lemma existsb_rev {A} (f : A -> bool) (l : list A) : existsb f (rev l) = existsb f l.
Proof.
  induction l as [|x l IH]; cbn; [reflexivity|].
  rewrite existsb_app, IH. cbn. rewrite orb_false_r, orb_comm. reflexivity.
Qed.

Lemma word_char_facts (c : ascii) :
  is_word c = true ->
  is_word (casefold_char c) = true /\ (127 <? nat_of_ascii c)%nat = false.
Proof.
  intros H. destruct c as [[] [] [] [] [] [] [] []]; try discriminate H;
    split; reflexivity.
Qed.

Lemma re_parse_word (c : ascii) (r : list ascii) (d : nat) (acc : list atom) :
  is_word c = true -> re_parse (c :: r) d acc = re_parse r d (AChar c :: acc).
Proof.
  intros H. destruct c as [[] [] [] [] [] [] [] []]; try discriminate H; reflexivity.
Qed.

Lemma re_parse_words (q r : list ascii) (d : nat) (acc : list atom) :
  forallb is_word q = true ->
  re_parse (q ++ r) d acc = re_parse r d (rev (map AChar q) ++ acc).
Proof.
  revert acc; induction q as [|c q IH]; intros acc Hq; [reflexivity|].
  cbn [forallb] in Hq. apply andb_prop in Hq as [Hc Hq].
  cbn [app]. rewrite re_parse_word by exact Hc. rewrite IH by exact Hq.
  cbn [map rev]. rewrite <- app_assoc. reflexivity.
Qed.

Lemma word_pattern (q : list ascii) :
  forallb is_word q = true ->
  re_parse (list_ascii_of_string (String.append "\b" (String.append (string_of_list_ascii q) "\b")))
           O [] = PAtoms (AWordB :: map AChar q ++ [AWordB]).
Proof.
  intros Hq. rewrite !list_ascii_append, list_ascii_of_string_of_list_ascii.
  cbn [list_ascii_of_string app]. cbn [re_parse Ascii.eqb Bool.eqb andb].
  rewrite re_parse_words by exact Hq. cbn.
  rewrite rev_app_distr, rev_involutive. reflexivity.
Qed.

Lemma skipn_nth_some (l : list ascii) (i : nat) (d : ascii) :
  nth_error l i = Some d -> skipn i l = d :: skipn (Datatypes.S i) l.
Proof.
  revert i; induction l as [|x l IH]; intros [|i] H; cbn in *; try discriminate.
  - injection H as <-. reflexivity.
  - apply IH, H.
Qed.

Lemma skipn_nth_none (l : list ascii) (i : nat) :
  nth_error l i = None -> skipn i l = [].
Proof.
  revert i; induction l as [|x l IH]; intros [|i] H; cbn in *; try discriminate; auto.
Qed.

Lemma match_chars (q : list ascii) (p : list atom) (l : list ascii) (i : nat) :
  match_at (map AChar q ++ p) l i = true <->
  firstn (List.length q) (skipn i l) = q /\ match_at p l (i + List.length q) = true.
Proof.
  revert i; induction q as [|c q IH]; intros i.
  - cbn. rewrite Nat.add_0_r. tauto.
  - cbn [map app match_at List.length].
    destruct (nth_error l i) as [d|] eqn:E.
    + rewrite (skipn_nth_some l i d E). cbn [firstn].
      rewrite andb_true_iff, IH, Ascii.eqb_eq. rewrite Nat.add_succ_r.
      split; [intros (-> & H1 & H2); rewrite H1; auto|].
      intros (H1 & H2). injection H1 as -> H1. auto.
    + rewrite (skipn_nth_none l i E). cbn [firstn]. split; [discriminate | intros [H _]; discriminate].
Qed.

Lemma firstn_skipn_nth (q l : list ascii) (i j : nat) :
  firstn (List.length q) (skipn i l) = q -> (j < List.length q)%nat ->
  nth_error l (i + j) = nth_error q j.
Proof.
  intros H Hj. rewrite <- H, nth_error_firstn.
  destruct (Nat.ltb_spec j (List.length q)); [|lia]. symmetry. apply nth_error_skipn.
Qed.

Lemma word_occurrence (q l : list ascii) (i : nat) :
  q <> [] -> forallb is_word q = true ->
  match_at (AWordB :: map AChar q ++ [AWordB]) l i = spec_whole_word_at q l i.
Proof.
  intros Hne Hq. apply Bool.eq_iff_eq_true.
  unfold spec_whole_word_at. cbn [match_at].
  rewrite andb_true_iff, match_chars, !andb_true_iff, String.eqb_eq, !negb_true_iff.
  cbn [match_at]. rewrite andb_true_r.
  assert (Hw : forall j, (j < List.length q)%nat -> firstn (List.length q) (skipn i l) = q ->
                        word_at l (i + j) = true).
  { intros j Hj Hf. unfold word_at. rewrite (firstn_skipn_nth q l i j Hf Hj).
    destruct (nth_error q j) as [c|] eqn:Ec; [|apply nth_error_None in Ec; lia].
    apply nth_error_In in Ec. rewrite forallb_forall in Hq. auto. }
  assert (Hlen : (0 < List.length q)%nat) by (destruct q; [congruence | cbn; lia]).
  split.
  - intros (Hb & Hf & He). pose proof (Hw O Hlen Hf) as W0. rewrite Nat.add_0_r in W0.
    pose proof (Hw (List.length q - 1)%nat ltac:(lia) Hf) as W1.
    unfold at_boundary in Hb, He. rewrite W0 in Hb.
    replace (i + List.length q)%nat with (Datatypes.S (i + (List.length q - 1)))%nat in He by lia.
    rewrite W1 in He. cbn in He.
    split; [split; [rewrite Hf; reflexivity|]|].
    + destruct i; [reflexivity|]. destruct (word_at l i); [discriminate | reflexivity].
    + replace (i + List.length q)%nat with (Datatypes.S (i + (List.length q - 1)))%nat by lia.
      destruct (word_at l _); [discriminate | reflexivity].
  - intros ((Hs & Hb) & He).
    assert (Hf : firstn (List.length q) (skipn i l) = q).
    { apply (f_equal list_ascii_of_string) in Hs.
      rewrite !list_ascii_of_string_of_list_ascii in Hs. exact Hs. }
    pose proof (Hw O Hlen Hf) as W0. rewrite Nat.add_0_r in W0.
    pose proof (Hw (List.length q - 1)%nat ltac:(lia) Hf) as W1.
    unfold at_boundary. rewrite W0.
    replace (i + List.length q)%nat with (Datatypes.S (i + (List.length q - 1)))%nat in He |- * by lia.
    rewrite W1, He. split; [|split; [exact Hf | reflexivity]].
    destruct i; [reflexivity|]. rewrite Hb. reflexivity.
Qed.

Lemma text_lines_acc_other (b : Byte.byte) (r : list Byte.byte) (cur : list ascii) :
  b <> Byte.x0a -> b <> Byte.x0d ->
  text_lines_acc (b :: r) cur =
    if 127 <? bval b then Err Unmodelled else text_lines_acc r (ascii_of_byte b :: cur).
Proof. intros H1 H2. destruct b; try reflexivity; congruence. Qed.

Lemma text_lines_acc_cr (r : list Byte.byte) (cur : list ascii) :
  exists r', (List.length r' <= List.length r)%nat /\
    text_lines_acc (Byte.x0d :: r) cur =
      let* ls := text_lines_acc r' [] in
      Ok (string_of_list_ascii (rev ("010"%char :: cur)) :: ls).
Proof.
  destruct r as [|b r]; [exists []; split; [lia | reflexivity]|].
  destruct (Byte.byte_eq_dec b Byte.x0a) as [->|Hb].
  - exists r. split; [cbn; lia | reflexivity].
  - exists (b :: r). split; [lia|]. destruct b; try reflexivity; congruence.
Qed.

Lemma ascii_of_byte_small (b : Byte.byte) :
  (127 <? bval b) = false -> (127 <? nat_of_ascii (ascii_of_byte b))%nat = false.
Proof. destruct b; intros H; first [reflexivity | discriminate H]. Qed.

Lemma text_lines_ascii (n : nat) (bs : list Byte.byte) (cur : list ascii) (ls : list string) :
  (List.length bs <= n)%nat ->
  existsb (fun c => (127 <? nat_of_ascii c)%nat) cur = false ->
  text_lines_acc bs cur = Ok ls ->
  Forall (fun s => existsb (fun c => (127 <? nat_of_ascii c)%nat) (list_ascii_of_string s) = false) ls.
Proof.
  assert (Hend : forall cur, existsb (fun c => (127 <? nat_of_ascii c)%nat) cur = false ->
    existsb (fun c => (127 <? nat_of_ascii c)%nat)
      (list_ascii_of_string (string_of_list_ascii (rev ("010"%char :: cur)))) = false).
  { intros c Hc. rewrite list_ascii_of_string_of_list_ascii, existsb_rev. exact Hc. }
  revert bs cur ls; induction n as [|n IH]; intros bs cur ls Hn Hc H.
  - destruct bs; [|cbn in Hn; lia]. cbn in H. injection H as <-.
    destruct cur as [|c cur]; constructor; [|constructor].
    rewrite list_ascii_of_string_of_list_ascii, existsb_rev. exact Hc.
  - destruct bs as [|b r].
    + cbn in H. injection H as <-.
      destruct cur as [|c cur]; constructor; [|constructor].
      rewrite list_ascii_of_string_of_list_ascii, existsb_rev. exact Hc.
    + cbn in Hn.
      destruct (Byte.byte_eq_dec b Byte.x0a) as [->|H1]; [|destruct (Byte.byte_eq_dec b Byte.x0d) as [->|H2]].
      * cbn [text_lines_acc] in H. destruct (text_lines_acc r []) as [ls'|] eqn:E;
          cbn [bind] in H; [|discriminate]. injection H as <-.
        constructor; [apply Hend; exact Hc|]. apply (IH r [] ls'); [lia | reflexivity | exact E].
      * destruct (text_lines_acc_cr r cur) as (r' & Hr' & Er). rewrite Er in H.
        destruct (text_lines_acc r' []) as [ls'|] eqn:E; cbn [bind] in H; [|discriminate].
        injection H as <-.
        constructor; [apply Hend; exact Hc|]. apply (IH r' [] ls'); [lia | reflexivity | exact E].
      * rewrite text_lines_acc_other in H by assumption.
        destruct (127 <? bval b) eqn:Eb; [discriminate|].
        apply (IH r (ascii_of_byte b :: cur) ls); [lia | | exact H]. cbn [existsb]. rewrite ascii_of_byte_small by exact Eb.
        exact Hc.
Qed.

Lemma casefold_ascii (s : string) :
  existsb (fun c => (127 <? nat_of_ascii c)%nat) (list_ascii_of_string s) = false ->
  casefold s = Ok (string_of_list_ascii (map casefold_char (list_ascii_of_string s))).
Proof.
  intros H. unfold casefold.
  assert (Hl : forall l, existsb (fun c => (127 <? nat_of_ascii c)%nat) l = false ->
                 casefold_list l = Ok (map casefold_char l)).
  { induction l as [|c l IH]; intros Hc; [reflexivity|].
    cbn [existsb] in Hc. apply orb_false_iff in Hc as [Hc Hl].
    cbn [casefold_list map]. rewrite (IH Hl).
    assert (Hcc : casefold_code c = Ok [casefold_char c]).
    { destruct c as [[] [] [] [] [] [] [] []]; first [discriminate Hc | reflexivity]. }
    rewrite Hcc. reflexivity. }
  rewrite (Hl _ H). reflexivity.
Qed.

Lemma scan_lines_word (name : string) (ls : list string) :
  list_ascii_of_string name <> [] -> forallb is_word (list_ascii_of_string name) = true ->
  Forall (fun s => existsb (fun c => (127 <? nat_of_ascii c)%nat) (list_ascii_of_string s) = false) ls ->
  scan_lines name ls = Ok (filter (spec_whole_word_match name) ls).
Proof.
  intros Hne Hw Hls. set (q := list_ascii_of_string name) in *.
  assert (Hq : forallb is_word (map casefold_char q) = true).
  { rewrite forallb_forall in Hw |- *. intros c Hc. apply in_map_iff in Hc as (c' & <- & Hc').
    apply word_char_facts, Hw, Hc'. }
  assert (Hqe : map casefold_char q <> []) by (destruct q; [congruence | discriminate]).
  assert (Hn : casefold name = Ok (string_of_list_ascii (map casefold_char q))).
  { apply casefold_ascii. apply Bool.not_true_iff_false. intros Hx.
    apply existsb_exists in Hx as (c & Hc & Hc'). rewrite forallb_forall in Hw.
    rewrite (proj2 (word_char_facts c (Hw c Hc))) in Hc'. discriminate. }
  induction Hls as [|line ls Hl Hls IH]; [reflexivity|].
  cbn [scan_lines filter]. rewrite Hn. cbn [bind]. rewrite (casefold_ascii line Hl). cbn [bind].
  unfold re_search. rewrite (word_pattern _ Hq), list_ascii_of_string_of_list_ascii.
  cbn [bind]. rewrite IH.
  unfold spec_whole_word_match. fold q.
  erewrite existsb_ext_eq; [reflexivity|]. intros i. apply word_occurrence; assumption.
Qed.

(** [X7] For a non-empty query made only of ASCII letters, digits and
    underscores, the name search returns exactly the lines of the index, in
    file order, in which the case-folded query occurs with no word
    character right before or right after it (the whole-word rule). *)
Theorem word_query_whole_word (home : string) (fs : fsys) (name : string)
    (bs : list Byte.byte) (lines : list string) :
  list_ascii_of_string name <> [] ->
  forallb is_word (list_ascii_of_string name) = true ->
  read_file fs (os_path_join (DBS_LOCAL_PATH home) "dastcom.idx") = Ok bs ->
  text_lines bs = Ok lines ->
  string_record_from_name home fs name = Ok (filter (spec_whole_word_match name) lines).
Proof.
  intros Hne Hw Hf Ht. unfold string_record_from_name. rewrite Hf. cbn [bind].
  rewrite Ht. cbn [bind]. apply scan_lines_word; try assumption.
  apply (text_lines_ascii (List.length bs) bs [] lines); [apply le_n | reflexivity | exact Ht].
Qed.

Lemma word_query_whole_word_witness :
  string_record_from_name sample_home sample_fs "Eros"
  = Ok (filter (spec_whole_word_match "Eros") [eros_line; String.append "     3 Aeros 2099 XA" nl;
                                                 halley_line]).
Proof.
  apply (word_query_whole_word sample_home sample_fs "Eros" sample_idx); vm_compute;
    first [reflexivity | discriminate].
Defined.

(** ** Record numbers of the index lines *)

Lemma digit_char (d : nat) :
  (d < 10)%nat ->
  digit (byte_of_ascii (ascii_of_nat (48 + d))) = Some (Z.of_nat d) /\
  py_str_isspace (ascii_of_nat (48 + d)) = false /\
  (127 <? nat_of_ascii (ascii_of_nat (48 + d)))%nat = false.
Proof.
  intros H. do 10 (destruct d as [|d]; [repeat split; reflexivity|]). lia.
Qed.

Lemma nat_digits_parse (fuel n : nat) (acc : string) (a : Z) :
  (n < fuel)%nat ->
  exists m, parse_digits (map byte_of_ascii (list_ascii_of_string (nat_digits fuel n acc))) a
          = parse_digits (map byte_of_ascii (list_ascii_of_string acc)) (a * m + Z.of_nat n).
Proof.
  revert n acc a; induction fuel as [|f IH]; intros n acc a Hn; [lia|].
  cbn [nat_digits].
  assert (Hd : (n mod 10 < 10)%nat) by (apply Nat.mod_upper_bound; lia).
  destruct (Nat.ltb_spec n 10) as [Hs|Hs].
  - exists 10. cbn [list_ascii_of_string map parse_digits].
    rewrite (proj1 (digit_char _ Hd)), Nat.mod_small by exact Hs. f_equal. lia.
  - destruct (IH (n / 10)%nat (String (ascii_of_nat (48 + n mod 10)) acc) a) as [m Hm].
    { apply Nat.Div0.div_lt_upper_bound. lia. }
    exists (10 * m). rewrite Hm. cbn [list_ascii_of_string map parse_digits].
    rewrite (proj1 (digit_char _ Hd)). f_equal.
    pose proof (Nat.div_mod_eq n 10) as E. lia.
Qed.

Lemma nat_digits_chars (fuel n : nat) (acc : string) :
  Forall (fun c => exists d, (d < 10)%nat /\ c = ascii_of_nat (48 + d)) (list_ascii_of_string acc) ->
  Forall (fun c => exists d, (d < 10)%nat /\ c = ascii_of_nat (48 + d))
         (list_ascii_of_string (nat_digits fuel n acc)).
Proof.
  revert n acc; induction fuel as [|f IH]; intros n acc H; [exact H|].
  cbn [nat_digits].
  assert (H' : Forall (fun c => exists d, (d < 10)%nat /\ c = ascii_of_nat (48 + d))
                 (list_ascii_of_string (String (ascii_of_nat (48 + n mod 10)) acc))).
  { constructor; [|exact H]. exists (n mod 10)%nat. split; [apply Nat.mod_upper_bound; lia | reflexivity]. }
  destruct (n <? 10)%nat; [exact H' | apply IH, H'].
Qed.

Lemma nat_digits_nonempty (fuel n : nat) (acc : string) :
  (0 < fuel)%nat \/ acc <> EmptyString -> list_ascii_of_string (nat_digits fuel n acc) <> [].
Proof.
  revert n acc; induction fuel as [|f IH]; intros n acc H.
  - destruct H as [H|H]; [lia|]. destruct acc; [congruence | discriminate].
  - cbn [nat_digits]. destruct (n <? 10)%nat; [discriminate|]. apply IH. right. discriminate.
Qed.

Lemma py_int_str_digits (l : list ascii) (z : Z) :
  l <> [] -> Forall (fun c => exists d, (d < 10)%nat /\ c = ascii_of_nat (48 + d)) l ->
  parse_digits (map byte_of_ascii l) 0 = Some z ->
  py_int_str (string_of_list_ascii l) = Ok z.
Proof.
  intros Hne Hall Hp. unfold py_int_str. rewrite list_ascii_of_string_of_list_ascii.
  assert (Hfact : forall c, In c l -> digit (byte_of_ascii c) <> None /\
            py_str_isspace c = false /\ (127 <? nat_of_ascii c)%nat = false).
  { intros c Hc. rewrite Forall_forall in Hall. destruct (Hall c Hc) as (d & Hd & ->).
    destruct (digit_char d Hd) as (H1 & H2 & H3). rewrite H1. repeat split; [discriminate | |]; assumption. }
  assert (Hx : existsb (fun c => (127 <? nat_of_ascii c)%nat) l = false).
  { apply Bool.not_true_iff_false. intros Hx. apply existsb_exists in Hx as (c & Hc & Hc').
    rewrite (proj2 (proj2 (Hfact c Hc))) in Hc'. discriminate. }
  rewrite Hx.
  assert (Hl1 : lstrip_chars l = l).
  { destruct l as [|c r]; [congruence|]. cbn [lstrip_chars].
    rewrite (proj1 (proj2 (Hfact c (or_introl eq_refl)))). reflexivity. }
  assert (Hl2 : lstrip_chars (rev l) = rev l).
  { destruct (rev l) as [|c r] eqn:E; [reflexivity|]. cbn [lstrip_chars].
    assert (Hc : In c l) by (apply in_rev; rewrite E; left; reflexivity).
    rewrite (proj1 (proj2 (Hfact c Hc))). reflexivity. }
  rewrite Hl1, Hl2, rev_involutive.
  destruct l as [|c r]; [congruence|]. cbn [map] in Hp |- *.
  assert (Hdc : digit (byte_of_ascii c) <> None) by exact (proj1 (Hfact c (or_introl eq_refl))).
  destruct (digit (byte_of_ascii c)) as [dc|] eqn:Edc; [|congruence].
  assert (Hsign : forall b u, digit b <> None ->
    match b :: u with
    | Byte.x2d :: u' => option_map Z.opp (parse_unsigned u')
    | Byte.x2b :: u' => parse_unsigned u'
    | u' => parse_unsigned u'
    end = parse_unsigned (b :: u)).
  { intros b u Hb. destruct b; try reflexivity; exfalso; apply Hb; reflexivity. }
  rewrite Hsign by congruence. unfold parse_unsigned. rewrite Edc, Hp. reflexivity.
Qed.

Lemma py_int_str_of_nat (n : nat) : py_int_str (str_of_nat n) = Ok (Z.of_nat n).
Proof.
  unfold str_of_nat. rewrite <- (string_of_list_ascii_of_string (nat_digits _ n "")).
  apply py_int_str_digits.
  - apply nat_digits_nonempty. left. lia.
  - apply nat_digits_chars. constructor.
  - destruct (nat_digits_parse (Datatypes.S n) n "" 0 ltac:(lia)) as [m Hm]. rewrite Hm. reflexivity.
Qed.

Lemma substring_append (a b : string) :
  substring 0 (String.length a) (String.append a b) = a.
Proof. induction a as [|c a IH]; cbn; [destruct b; reflexivity | rewrite IH; reflexivity]. Qed.

Lemma string_append_assoc (a b c : string) :
  String.append a (String.append b c) = String.append (String.append a b) c.
Proof. induction a as [|x a IH]; cbn; [reflexivity | rewrite IH; reflexivity]. Qed.

Lemma index_number (k n : nat) (rest : string) :
  (k + String.length (str_of_nat n))%nat = 6%nat ->
  py_int_str (str_lstrip (substring 0 6
    (String.append (string_of_list_ascii (repeat " "%char k)) (String.append (str_of_nat n) rest))))
  = Ok (Z.of_nat n).
Proof.
  intros Hk. rewrite string_append_assoc.
  assert (Hl : String.length (String.append (string_of_list_ascii (repeat " "%char k)) (str_of_nat n))
               = 6%nat).
  { rewrite <- Hk. clear Hk. induction k as [|k IH]; simpl; congruence. }
  rewrite <- Hl, substring_append. unfold str_lstrip.
  rewrite list_ascii_append, list_ascii_of_string_of_list_ascii.
  assert (Hs : forall j l, lstrip_chars (repeat " "%char j ++ l) = lstrip_chars l).
  { intros j l. induction j as [|j IH]; [reflexivity|]. exact IH. }
  rewrite Hs.
  assert (Hd : lstrip_chars (list_ascii_of_string (str_of_nat n)) = list_ascii_of_string (str_of_nat n)).
  { unfold str_of_nat.
    pose proof (nat_digits_nonempty (Datatypes.S n) n "" ltac:(left; lia)) as Hne.
    pose proof (nat_digits_chars (Datatypes.S n) n "" ltac:(constructor)) as Hall.
    destruct (list_ascii_of_string (nat_digits (Datatypes.S n) n "")) as [|c r]; [congruence|].
    apply Forall_inv in Hall. destruct Hall as (d & Hd & Hc). cbn [lstrip_chars].
    rewrite Hc, (proj1 (proj2 (digit_char d Hd))). reflexivity. }
  rewrite Hd, string_of_list_ascii_of_string. apply py_int_str_of_nat.
Qed.

Lemma map_result_ok {A B} (f : A -> result B) (xs : list A) (ys : list B) :
  Forall2 (fun x y => f x = Ok y) xs ys -> map_result f xs = Ok ys.
Proof. induction 1 as [|x y xs ys Hxy _ IH]; cbn; [reflexivity | rewrite Hxy, IH; reflexivity]. Qed.

(** [X8] [record_from_name] returns, in order, the record numbers of the index
    lines the name search selects, when each of those lines starts with its
    record number right-justified in six characters (spaces, then the
    decimal digits). *)
Theorem record_from_name_numbers (home : string) (fs : fsys) (name : string)
    (ls : list string) (ns : list nat) :
  string_record_from_name home fs name = Ok ls ->
  Forall2 (fun line n => exists k rest,
             line = String.append (string_of_list_ascii (repeat " "%char k))
                                  (String.append (str_of_nat n) rest) /\
             (k + String.length (str_of_nat n))%nat = 6%nat) ls ns ->
  record_from_name home fs name = Ok (map Z.of_nat ns).
Proof.
  intros Hs Hl. unfold record_from_name. rewrite Hs. cbn [bind].
  apply map_result_ok. clear Hs. induction Hl as [|line n ls ns (k & rest & -> & Hk) _ IH]; cbn [map].
  - constructor.
  - constructor; [apply index_number, Hk | exact IH].
Qed.

Lemma record_from_name_numbers_witness :
  record_from_name sample_home sample_fs "Eros" = Ok [1].
Proof.
  apply (record_from_name_numbers sample_home sample_fs "Eros" [eros_line] [1%nat]).
  - vm_compute. reflexivity.
  - constructor; [|constructor]. exists 5%nat, (String.append " 433 Eros (A898 PA)" nl).
    split; reflexivity.
Defined.

(** ** Download *)

Lemma io_bind_ok {A B} (m : io A) (k : A -> io B) (fs fs' : fsys) (x : B) :
  io_bind m k fs = (Ok x, fs') -> exists a fs1, m fs = (Ok a, fs1) /\ k a fs1 = (Ok x, fs').
Proof. unfold io_bind. destruct (m fs) as [[a|e] fs1]; [eauto | discriminate]. Qed.

Lemma lookup_removed {A} (p : string) (l : list (string * A)) :
  lookup p (filter (fun f => negb (String.eqb p (fst f))) l) = None.
Proof.
  induction l as [|[q v] l IH]; [reflexivity|]. cbn [filter fst].
  destruct (String.eqb p q) eqn:E; cbn [negb]; [exact IH|]. cbn [lookup]. rewrite E. exact IH.
Qed.

Lemma lookup_written {A} (p : string) (v : A) (l : list (string * A)) :
  lookup p ((p, v) :: filter (fun f => negb (String.eqb p (fst f))) l) = Some v.
Proof. cbn [lookup]. rewrite String.eqb_refl. reflexivity. Qed.

Lemma lookup_filter_kept {A} (d p : string) (l : list (string * A)) :
  under d p = false -> lookup p (filter (fun f => negb (under d (fst f))) l) = lookup p l.
Proof.
  intros HP'. assert (HP : negb (under d p) = true) by (rewrite HP'; reflexivity). clear HP'.
  induction l as [|[q v] l IH]; [reflexivity|]. cbn [filter fst lookup].
  destruct (String.eqb_spec p q) as [<-|Hne].
  - rewrite HP. cbn [lookup]. rewrite String.eqb_refl. reflexivity.
  - destruct (negb (under d q)); [cbn [lookup]; apply String.eqb_neq in Hne; rewrite Hne|]; exact IH.
Qed.


Lemma prefix_append (a s t : string) :
  String.prefix (String.append a s) (String.append a t) = String.prefix s t.
Proof.
  induction a as [|c a IH]; [reflexivity|]. cbn. destruct (ascii_dec c c); [exact IH | congruence].
Qed.

Lemma zip_not_under_dir (s : string) :
  under (os_path_join s "dastcom5") (os_path_join s "dastcom5.zip") = false.
Proof.
  unfold under, os_path_join. rewrite <- string_append_assoc, prefix_append. reflexivity.
Qed.

(** [X9] After a successful [download_dastcom5] the archive
    [~/.sbpy/dastcom5.zip] is gone: the last step removes it. *)
Theorem download_removes_zip (home : string) (remote_zip : list Byte.byte)
    (zip_members : list Byte.byte -> option (list (string * list Byte.byte)))
    (update : bool) (fs fs' : fsys) :
  download_dastcom5 home remote_zip zip_members update fs = (Ok tt, fs') ->
  lookup (os_path_join (SBPY_LOCAL_PATH home) "dastcom5.zip") (fs_files fs') = None.
Proof.
  unfold download_dastcom5. intros H.
  apply io_bind_ok in H as (d1 & fs1 & _ & H).
  destruct (d1 && negb update); [discriminate|].
  do 6 (apply io_bind_ok in H as (? & ? & _ & H)). cbv beta in H.
  unfold os_remove in H.
  match type of H with context [lookup ?p ?l] => destruct (lookup p l) end; [|discriminate].
  injection H as <-. apply lookup_removed.
Qed.

Lemma download_removes_zip_witness :
  match download_dastcom5 sample_home [] (fun _ => Some []) true sample_fs with
  | (Ok tt, fs') => lookup (os_path_join (SBPY_LOCAL_PATH sample_home) "dastcom5.zip") (fs_files fs')
  | (Err _, _) => Some []
  end = None.
Proof.
  destruct (download_dastcom5 sample_home [] (fun _ => Some []) true sample_fs) as [[[]|e] fs'] eqn:E.
  - exact (download_removes_zip sample_home [] (fun _ => Some []) true sample_fs fs' E).
  - vm_compute in E. discriminate E.
Defined.

Lemma io_bind_ext_at {A B} (m : io A) (k k' : A -> io B) (fs : fsys) :
  (forall a fs1, m fs = (Ok a, fs1) -> k a fs1 = k' a fs1) -> io_bind m k fs = io_bind m k' fs.
Proof. intros H. unfold io_bind. destruct (m fs) as [[a|e] fs1] eqn:E; [apply H; reflexivity | reflexivity]. Qed.

Lemma io_tail_local_zip (zip_members : list Byte.byte -> option (list (string * list Byte.byte)))
    (zp : string) (fs : fsys) (bs : list Byte.byte) (ms : list (string * list Byte.byte))
    (X X' Y : io unit) :
  lookup zp (fs_files fs) = Some bs -> zip_members bs = Some ms ->
  io_bind (zipfile_is_zipfile zip_members zp)
          (fun z => io_bind (if negb z then X else io_ret tt) (fun _ => Y)) fs
  = io_bind (zipfile_is_zipfile zip_members zp)
          (fun z => io_bind (if negb z then X' else io_ret tt) (fun _ => Y)) fs.
Proof.
  intros Hz Hm. apply io_bind_ext_at. intros z fs1 E.
  unfold zipfile_is_zipfile in E. rewrite Hz, Hm in E. injection E as <- <-. reflexivity.
Qed.

(** [X10] When [~/.sbpy/dastcom5.zip] already holds a zip archive, nothing is
    downloaded: the outcome and the final file system do not depend on what
    the server would send (the [update] removal of [~/.sbpy/dastcom5] does
    not touch the archive beside it). *)
Theorem download_uses_local_zip (home : string)
    (zip_members : list Byte.byte -> option (list (string * list Byte.byte)))
    (update : bool) (fs : fsys) (bs : list Byte.byte) (ms : list (string * list Byte.byte)) :
  lookup (os_path_join (SBPY_LOCAL_PATH home) "dastcom5.zip") (fs_files fs) = Some bs ->
  zip_members bs = Some ms ->
  forall r1 r2, download_dastcom5 home r1 zip_members update fs
                = download_dastcom5 home r2 zip_members update fs.
Proof.
  intros Hz Hm r1 r2. unfold download_dastcom5. cbv zeta.
  set (zp := os_path_join (SBPY_LOCAL_PATH home) "dastcom5.zip") in *.
  apply io_bind_ext_at; intros d1 fs1 E1. unfold os_path_isdir in E1. injection E1 as _ <-.
  destruct (d1 && negb update); [reflexivity|].
  apply io_bind_ext_at; intros d2 fs2 E2. unfold os_path_isdir in E2. injection E2 as _ <-.
  apply io_bind_ext_at; intros [] fs3 E3.
  apply io_bind_ext_at; intros [] fs4 E4. unfold print, io_ret in E4. injection E4 as <-.
  apply (io_tail_local_zip zip_members zp fs3 bs ms); [|exact Hm].
  destruct (d2 && update).
  - unfold shutil_rmtree in E3.
    destruct (existsb _ (fs_dirs fs)); [|discriminate]. injection E3 as <-. cbn [fs_files].
    rewrite lookup_filter_kept by apply zip_not_under_dir. exact Hz.
  - unfold io_ret in E3. injection E3 as <-. exact Hz.
Qed.

Lemma download_uses_local_zip_witness :
  download_dastcom5 sample_home [] (fun _ => Some []) true
    {| fs_dirs := fs_dirs sample_fs;
       fs_files := (os_path_join (SBPY_LOCAL_PATH sample_home) "dastcom5.zip", [Byte.x50])
                   :: fs_files sample_fs |}
  = download_dastcom5 sample_home [Byte.x00] (fun _ => Some []) true
    {| fs_dirs := fs_dirs sample_fs;
       fs_files := (os_path_join (SBPY_LOCAL_PATH sample_home) "dastcom5.zip", [Byte.x50])
                   :: fs_files sample_fs |}.
Proof.
  apply (download_uses_local_zip sample_home (fun _ => Some []) true _ [Byte.x50] []);
    vm_compute; reflexivity.
Defined.







Lemma lookup_write_cases {A} (p q : string) (v b : A) (l : list (string * A)) :
  lookup p ((q, v) :: filter (fun f => negb (String.eqb q (fst f))) l) = Some b ->
  (p = q /\ b = v) \/ (p <> q /\ lookup p l = Some b).
Proof.
  cbn [lookup]. destruct (String.eqb_spec p q) as [<-|Hne].
  - intros H. injection H as <-. left. auto.
  - intros H. right. split; [exact Hne|].
    induction l as [|[k w] l IH]; [discriminate|]. cbn [filter fst] in H.
    destruct (String.eqb_spec q k) as [<-|Hk]; cbn [negb] in H.
    + cbn [lookup]. apply String.eqb_neq in Hne. rewrite Hne. auto.
    + cbn [lookup] in H |- *. destruct (String.eqb p k); auto.
Qed.

Lemma lookup_write_other {A} (p q : string) (v : A) (l : list (string * A)) :
  p <> q -> lookup p ((q, v) :: filter (fun f => negb (String.eqb q (fst f))) l) = lookup p l.
Proof.
  intros Hne. cbn [lookup]. apply String.eqb_neq in Hne as Hne'. rewrite Hne'.
  induction l as [|[k w] l IH]; [reflexivity|]. cbn [filter fst lookup].
  destruct (String.eqb_spec q k) as [<-|Hk]; cbn [negb]; [rewrite Hne'; exact IH|].
  cbn [lookup]. destruct (String.eqb p k); [reflexivity | exact IH].
Qed.

Lemma lookup_rmtree_under {A} (d p : string) (l : list (string * A)) :
  under d p = true -> lookup p (filter (fun f => negb (under d (fst f))) l) = None.
Proof.
  intros Hu. induction l as [|[q v] l IH]; [reflexivity|]. cbn [filter fst].
  destruct (under d q) eqn:Eq; cbn [negb]; [exact IH|]. cbn [lookup].
  destruct (String.eqb_spec p q) as [->|_]; [congruence | exact IH].
Qed.

Lemma write_all_lookup (dir : string) (ms : list (string * list Byte.byte)) (fs fs' : fsys) x :
  write_all dir ms fs = (Ok x, fs') ->
  forall p b, lookup p (fs_files fs') = Some b ->
  lookup p (fs_files fs) = Some b \/ exists n, In (n, b) ms /\ p = os_path_join dir n.
Proof.
  revert fs; induction ms as [|[n bs] ms IH]; intros fs H p b Hp.
  - cbn in H. injection H as _ <-. left. exact Hp.
  - cbn [write_all] in H. apply io_bind_ok in H as ([] & fs1 & E1 & H).
    unfold write_file in E1. destruct (is_dir fs _); [discriminate|]. injection E1 as <-.
    destruct (IH _ H p b Hp) as [H1 | (n' & Hin & ->)].
    + cbn [fs_files] in H1. apply lookup_write_cases in H1 as [(-> & ->) | (_ & H1)].
      * right. exists n. split; [left; reflexivity | reflexivity].
      * left. exact H1.
    + right. exists n'. split; [right; exact Hin | reflexivity].
Qed.

(** [X12] A successful [download_dastcom5] with [update] over an existing
    [~/.sbpy/dastcom5] replaces that directory wholesale: every file left
    under it is a member of the zip archive that was extracted, which is
    either the file already at [~/.sbpy/dastcom5.zip] or the one
    downloaded. *)
Theorem download_update_replaces (home : string) (remote_zip : list Byte.byte)
    (zip_members : list Byte.byte -> option (list (string * list Byte.byte))) (fs fs' : fsys) :
  existsb (String.eqb (os_path_join (SBPY_LOCAL_PATH home) "dastcom5")) (fs_dirs fs) = true ->
  download_dastcom5 home remote_zip zip_members true fs = (Ok tt, fs') ->
  forall p b, under (os_path_join (SBPY_LOCAL_PATH home) "dastcom5") p = true ->
    lookup p (fs_files fs') = Some b ->
    exists bs ms n, zip_members bs = Some ms /\
      (bs = remote_zip \/
       lookup (os_path_join (SBPY_LOCAL_PATH home) "dastcom5.zip") (fs_files fs) = Some bs) /\
      In (n, b) ms /\ p = os_path_join (SBPY_LOCAL_PATH home) n.
Proof.
  intros Hdir H p b Hu Hp. unfold download_dastcom5 in H. cbv zeta in H.
  set (dir := os_path_join (SBPY_LOCAL_PATH home) "dastcom5") in *.
  set (zp := os_path_join (SBPY_LOCAL_PATH home) "dastcom5.zip") in *.
  assert (Hpz : p <> zp).
  { intros ->. unfold dir, zp in Hu. rewrite zip_not_under_dir in Hu. discriminate. }
  apply io_bind_ok in H as (d1 & fs1 & E1 & H).
  unfold os_path_isdir in E1. rewrite Hdir in E1. injection E1 as <- <-.
  cbv beta iota delta [andb negb] in H.
  apply io_bind_ok in H as (d2 & fs2 & E2 & H).
  unfold os_path_isdir in E2. rewrite Hdir in E2. injection E2 as <- <-.
  cbv beta iota delta [andb] in H.
  apply io_bind_ok in H as ([] & fs3 & E3 & H).
  unfold shutil_rmtree in E3. rewrite Hdir in E3. injection E3 as <-.
  apply io_bind_ok in H as ([] & fs4 & E4 & H). unfold print, io_ret in E4. injection E4 as <-.
  apply io_bind_ok in H as (z & fs5 & E5 & H).
  apply io_bind_ok in H as ([] & fs6 & E6 & H).
  apply io_bind_ok in H as ([] & fs7 & E7 & H).
  set (fs3 := {| fs_dirs := _; fs_files := filter (fun f => negb (under dir (fst f))) (fs_files fs) |})
    in *.
  assert (Hz3 : lookup zp (fs_files fs3) = lookup zp (fs_files fs))
    by (apply lookup_filter_kept, zip_not_under_dir).
  assert (Hp3 : lookup p (fs_files fs3) = None) by (apply lookup_rmtree_under, Hu).
  (* the archive extracted, and what the download step leaves at [p] *)
  assert (Harch : exists bs, lookup zp (fs_files fs6) = Some bs /\
            (z = true -> zip_members bs <> None) /\
            (bs = remote_zip \/ lookup zp (fs_files fs) = Some bs) /\
            lookup p (fs_files fs6) = None).
  { unfold zipfile_is_zipfile in E5. destruct (lookup zp (fs_files fs3)) as [bz|] eqn:Ez;
      injection E5 as <- <-.
    - destruct (zip_members bz) eqn:Em; cbn [negb] in E6.
      + unfold io_ret in E6. injection E6 as <-. exists bz.
        split; [exact Ez|]. split; [congruence|]. split; [right; congruence | exact Hp3].
      + apply io_bind_ok in E6 as (s & fs8 & E8 & E6).
        apply io_bind_ok in E6 as ([] & fs9 & E9 & E6).
        unfold os_path_isdir in E8. injection E8 as <- <-.
        unfold urlretrieve, write_file in E6. destruct (is_dir fs9 _); [discriminate|].
        injection E6 as <-.
        assert (F9 : fs_files fs9 = fs_files fs3).
        { revert E9. match goal with |- (if ?c then _ else _) _ = _ -> _ => destruct c end;
            [unfold os_makedirs; destruct (is_dir fs3 _), (lookup (SBPY_LOCAL_PATH home) (fs_files fs3))
             | unfold io_ret];
            intros E9; try discriminate E9; injection E9 as <-; reflexivity. }
        exists remote_zip. cbn [fs_files]. rewrite (lookup_write_other p zp) by exact Hpz.
        split; [apply lookup_written|]. split; [discriminate|]. split; [left; reflexivity|].
        rewrite F9. exact Hp3.
    - cbn [negb] in E6.
      apply io_bind_ok in E6 as (s & fs8 & E8 & E6).
      apply io_bind_ok in E6 as ([] & fs9 & E9 & E6).
      unfold os_path_isdir in E8. injection E8 as <- <-.
      unfold urlretrieve, write_file in E6. destruct (is_dir fs9 _); [discriminate|].
      injection E6 as <-.
      assert (F9 : fs_files fs9 = fs_files fs3).
      { revert E9. match goal with |- (if ?c then _ else _) _ = _ -> _ => destruct c end;
          [unfold os_makedirs; destruct (is_dir fs3 _), (lookup (SBPY_LOCAL_PATH home) (fs_files fs3))
             | unfold io_ret];
            intros E9; try discriminate E9; injection E9 as <-; reflexivity. }
      exists remote_zip. cbn [fs_files]. rewrite (lookup_write_other p zp) by exact Hpz.
      split; [apply lookup_written|]. split; [discriminate|]. split; [left; reflexivity|].
      rewrite F9. exact Hp3. }
  destruct Harch as (bs & Hb6 & _ & Hsrc & Hp6).
  unfold extractall, read_file in E7. destruct (is_dir fs6 zp); [discriminate|].
  rewrite Hb6 in E7.
  destruct (zip_members bs) as [ms|] eqn:Em; [|discriminate].
  unfold os_remove in H.
  destruct (lookup zp (fs_files fs7)); [|discriminate]. injection H as <-.
  cbn [fs_files] in Hp.
  assert (Hp7 : lookup p (fs_files fs7) = Some b).
  { rewrite <- Hp. clear Hp. induction (fs_files fs7) as [|[k w] l7 IH]; [reflexivity|].
    cbn [filter fst lookup]. destruct (String.eqb_spec zp k) as [<-|Hk]; cbn [negb lookup].
    - apply String.eqb_neq in Hpz. rewrite Hpz. exact IH.
    - destruct (String.eqb p k); [reflexivity | exact IH]. }
  destruct (write_all_lookup _ ms fs6 fs7 tt E7 p b Hp7) as [H6 | (n & Hin & ->)].
  - congruence.
  - exists bs, ms, n. auto.
Qed.

Lemma download_update_replaces_witness :
  match download_dastcom5 sample_home [] (fun _ => Some [("dastcom5/new.dat", [Byte.x01])]) true
          sample_fs with
  | (Ok tt, fs') =>
      forall p b, under (os_path_join (SBPY_LOCAL_PATH sample_home) "dastcom5") p = true ->
        lookup p (fs_files fs') = Some b ->
        exists bs ms n, (fun _ => Some [("dastcom5/new.dat", [Byte.x01])]) bs = Some ms /\
          (bs = [] \/ lookup (os_path_join (SBPY_LOCAL_PATH sample_home) "dastcom5.zip")
                             (fs_files sample_fs) = Some bs) /\
          In (n, b) ms /\ p = os_path_join (SBPY_LOCAL_PATH sample_home) n
  | (Err _, _) => False
  end.
Proof.
  destruct (download_dastcom5 sample_home [] (fun _ => Some [("dastcom5/new.dat", [Byte.x01])]) true
              sample_fs) as [[[]|e] fs'] eqn:E.
  - exact (download_update_replaces sample_home [] _ sample_fs fs' ltac:(vm_compute; reflexivity) E).
  - vm_compute in E. discriminate E.
Defined.
